(** * CBC Smart Study Assistant backend: request validation and prompt pipeline

    A shallow embedding of the two Express servers of the repository:

    - the rich variant (validateGenerateRequest, generateCBCPrompt and the
      handlers of /api/generate, /api/teacher-materials, /api/clarify,
      /api/learning-path, /api/metadata and /api/health);
    - the simple variant (the handler of /api/gemini in src/server.js).

    Modelling conventions.

    - A request body is what express.json() hands to a handler: the own
      properties of a parsed JSON object, in order.  A field that is missing
      reads as undefined.  (A body that is a JSON array has none of the
      fields the handlers read.)
    - JavaScript strings are Rocq strings holding the UTF-8 encoding of the
      text; String.prototype.trim removes the ECMAScript WhiteSpace and
      LineTerminator code points, written out below as byte sequences.
    - A Number is represented by the text that Number::toString gives for
      it (42, -3, 0.5, 1e+21, Infinity): the program observes a number only
      through that text, through its truth value and through
      JSON.stringify.  Both zeros print as 0.
    - Object literals of the program (grades, contentPrompts) inherit from
      Object.prototype, so a bracket lookup that misses the own properties
      falls through to the built-in members of that prototype.
    - The completion gateway (model.generateContent) and the clock
      (new Date().toISOString()) are parameters of the handlers.  Every call
      made to the gateway is recorded, in order, next to the response.
    - CORS, rate limiting, process start-up and logging are outside the
      model. *)

From Stdlib Require Import Bool List Arith Lia Ascii String.
Import ListNotations.
Open Scope string_scope.

Set Implicit Arguments.

(* ================================================================= *)
(** ** JavaScript values *)

(** The values JSON.parse can produce.  A number carries its canonical
    text, as said above; an object carries its own properties in the order
    JavaScript enumerates them. *)
#[warnings="-register-all"]
Inductive json : Type :=
| JNull
| JBool (b : bool)
| JNum (printed : string)
| JStr (s : string)
| JArr (elements : list json)
| JObj (properties : list (string * json)).

(** The values a handler can hold: undefined, a value that came out of the
    request body, a built-in function object (named by its [name] property)
    or the object Object.prototype itself. *)
Inductive value : Type :=
| VUndefined
| VJson (j : json)
| VNative (name : string)
| VObjectPrototype.

Coercion VJson : json >-> value.

Definition VStr (s : string) : value := VJson (JStr s).
Definition VBool (b : bool) : value := VJson (JBool b).

(** Exceptions carry the [message] property that the handlers report. *)
Inductive exn : Type :=
| Error (message : string).

Definition message (e : exn) : string :=
  match e with Error m => m end.

(** The completion of an expression: it throws or it yields a value. *)
Inductive completion (A : Type) : Type :=
| Throw (e : exn)
| Return (a : A).

Arguments Throw {A} e.
Arguments Return {A} a.

Definition bind {A B : Type} (c : completion A) (k : A -> completion B)
  : completion B :=
  match c with
  | Throw e => Throw e
  | Return a => k a
  end.

Notation "x <- c ;; k" := (bind c (fun x => k))
  (at level 61, c at next level, right associativity).

(* ================================================================= *)
(** ** Strings *)

Module Str.

(** The double quote character, which the templates put around the topic. *)
Definition dquote : string := String (ascii_of_nat 34) EmptyString.

Definition bytes (l : list nat) : string :=
  string_of_list_ascii (map ascii_of_nat l).

(** ECMAScript WhiteSpace and LineTerminator, UTF-8 encoded:
    TAB, LF, VT, FF, CR, SPACE, U+00A0, U+1680, U+2000 to U+200A,
    U+2028, U+2029, U+202F, U+205F, U+3000 and U+FEFF. *)
Definition white_space : list string :=
  map bytes
    [ [9]; [10]; [11]; [12]; [13]; [32];
      [194; 160];
      [225; 154; 128];
      [226; 128; 128]; [226; 128; 129]; [226; 128; 130]; [226; 128; 131];
      [226; 128; 132]; [226; 128; 133]; [226; 128; 134]; [226; 128; 135];
      [226; 128; 136]; [226; 128; 137]; [226; 128; 138];
      [226; 128; 168]; [226; 128; 169]; [226; 128; 175];
      [226; 129; 159];
      [227; 128; 128];
      [239; 187; 191] ].

Definition ws1 (a : ascii) : bool :=
  existsb (String.eqb (String a EmptyString)) white_space.

Definition ws2 (a b : ascii) : bool :=
  existsb (String.eqb (String a (String b EmptyString))) white_space.

Definition ws3 (a b c : ascii) : bool :=
  existsb (String.eqb (String a (String b (String c EmptyString))))
          white_space.

(** String.prototype.trimStart *)
Fixpoint trimStart (s : string) : string :=
  match s with
  | EmptyString => EmptyString
  | String a r1 =>
    if ws1 a then trimStart r1 else
    match r1 with
    | EmptyString => s
    | String b r2 =>
      if ws2 a b then trimStart r2 else
      match r2 with
      | EmptyString => s
      | String c r3 => if ws3 a b c then trimStart r3 else s
      end
    end
  end.

Fixpoint rev (s : string) : string :=
  match s with
  | EmptyString => EmptyString
  | String a r => rev r ++ String a EmptyString
  end.

(** The same scan from the end of the text, on the reversed string: the
    bytes of a code point are met last one first. *)
Fixpoint trimStartRev (s : string) : string :=
  match s with
  | EmptyString => EmptyString
  | String a r1 =>
    if ws1 a then trimStartRev r1 else
    match r1 with
    | EmptyString => s
    | String b r2 =>
      if ws2 b a then trimStartRev r2 else
      match r2 with
      | EmptyString => s
      | String c r3 => if ws3 c b a then trimStartRev r3 else s
      end
    end
  end.

(** String.prototype.trimEnd *)
Definition trimEnd (s : string) : string := rev (trimStartRev (rev s)).

(** String.prototype.trim *)
Definition trim (s : string) : string := trimEnd (trimStart s).

(** Array.prototype.join on an array of strings. *)
Fixpoint join (sep : string) (l : list string) : string :=
  match l with
  | [] => EmptyString
  | [x] => x
  | x :: rest => x ++ sep ++ join sep rest
  end.

(** Array.prototype.includes on an array of strings, for a string. *)
Definition includes (l : list string) (s : string) : bool :=
  existsb (String.eqb s) l.

(** [sub] occurs in [s]. *)
Fixpoint contains (sub s : string) : bool :=
  String.prefix sub s ||
  match s with
  | EmptyString => false
  | String _ r => contains sub r
  end.

(** A text made of white space only. *)
Inductive blank : string -> Prop :=
| blank_empty : blank EmptyString
| blank_ws (w s : string) : In w white_space -> blank s -> blank (w ++ s).

End Str.

(* ================================================================= *)
(** ** Conversions and property access *)

Module Js.

(** ToBoolean *)
Definition truthy (v : value) : bool :=
  match v with
  | VUndefined => false
  | VJson JNull => false
  | VJson (JBool b) => b
  | VJson (JNum n) => negb (n =? "0") && negb (n =? "NaN")
  | VJson (JStr s) => negb (s =? EmptyString)
  | VJson (JArr _) => true
  | VJson (JObj _) => true
  | VNative _ => true
  | VObjectPrototype => true
  end.

(** typeof v === "string" *)
Definition is_string (v : value) : bool :=
  match v with
  | VJson (JStr _) => true
  | _ => false
  end.

(** v === s for a string s *)
Definition strict_eq_string (v : value) (s : string) : bool :=
  match v with
  | VJson (JStr t) => t =? s
  | _ => false
  end.

(** Array.prototype.includes of an array of strings at any value:
    SameValueZero never identifies a string with a value of another type. *)
Definition includes (l : list string) (v : value) : bool :=
  existsb (strict_eq_string v) l.

Definition lookup {A : Type} (props : list (string * A)) (k : string)
  : option A :=
  option_map snd (find (fun p => fst p =? k) props).

Definition cannot_convert : exn :=
  Error "Cannot convert object to primitive value".

(** ToString on a parsed JSON value.  A number prints as its text.  An
    array prints its elements joined
    by commas, null printing as the empty text.  A plain object prints
    through Object.prototype.toString, unless an own property named
    toString hides it: the value of that property is not callable, valueOf
    (own or inherited) does not yield a primitive either, and the
    conversion throws a TypeError. *)
Fixpoint json_to_string (j : json) : completion string :=
  match j with
  | JNull => Return "null"
  | JBool true => Return "true"
  | JBool false => Return "false"
  | JNum n => Return n
  | JStr s => Return s
  | JArr l =>
    ss <- (fix elements (l : list json) : completion (list string) :=
             match l with
             | [] => Return []
             | e :: rest =>
               s <- match e with
                    | JNull => Return EmptyString
                    | _ => json_to_string e
                    end ;;
               ss <- elements rest ;;
               Return (s :: ss)
             end) l ;;
    Return (Str.join "," ss)
  | JObj props =>
    match lookup props "toString" with
    | Some _ => Throw cannot_convert
    | None => Return "[object Object]"
    end
  end.

(** ToString.  A built-in function prints as V8 prints native code. *)
Definition to_string (v : value) : completion string :=
  match v with
  | VUndefined => Return "undefined"
  | VJson j => json_to_string j
  | VNative name =>
    Return ("function " ++ name ++ "() { [native code] }")
  | VObjectPrototype => Return "[object Object]"
  end.

(** The members of Object.prototype, as Node.js defines them.  All are
    functions except __proto__, an accessor that yields the prototype of
    the receiver: for an object literal, Object.prototype itself. *)
Definition object_prototype (k : string) : value :=
  if k =? "constructor" then VNative "Object"
  else if k =? "__proto__" then VObjectPrototype
  else if Str.includes
            [ "__defineGetter__"; "__defineSetter__"; "hasOwnProperty";
              "__lookupGetter__"; "__lookupSetter__"; "isPrototypeOf";
              "propertyIsEnumerable"; "toString"; "valueOf";
              "toLocaleString" ] k
       then VNative k
  else VUndefined.

(** o[key] for an object literal o whose own properties are [props]:
    the key is converted with ToPropertyKey, the own properties are
    searched, then Object.prototype. *)
Definition member (props : list (string * value)) (key : value)
  : completion value :=
  k <- to_string key ;;
  Return match lookup props k with
         | Some v => v
         | None => object_prototype k
         end.

(** Object.keys of an object literal with no integer-like key: the own
    property names in the order they were written. *)
Definition keys {A : Type} (props : list (string * A)) : list string :=
  map fst props.

(** v.trim() for a truthy value taken from the request body: a string
    has the method; a number, a boolean, an array or an object has no
    callable member of that name (an own property of a parsed object is
    never a function), and the call throws a TypeError. *)
Definition call_trim (v : value) : completion string :=
  match v with
  | VJson (JStr s) => Return (Str.trim s)
  | _ => Throw (Error "topic.trim is not a function")
  end.

(** a || b *)
Definition or_else (a b : value) : value := if truthy a then a else b.

(** The default of a destructuring pattern applies to undefined only. *)
Definition default (v d : value) : value :=
  match v with
  | VUndefined => d
  | _ => v
  end.

End Js.

(* ================================================================= *)
(** ** Requests, responses and the gateway *)

(** req.body: the own properties of the parsed JSON object. *)
Definition body : Type := list (string * json).

(** req.body.name, as the destructuring patterns of the handlers read it. *)
Definition field (b : body) (name : string) : value :=
  match Js.lookup b name with
  | Some j => VJson j
  | None => VUndefined
  end.

(** What the client receives: the status code and the parsed JSON text. *)
Record response : Type := mkResponse {
  status : nat;
  payload : json
}.

(** JSON.stringify on values of the request, as the client parses the text
    back: a number that is not finite is written null, also inside arrays
    and objects; everything else is written as it is. *)
Fixpoint serialize (j : json) : json :=
  match j with
  | JNum n =>
    if (n =? "Infinity") || (n =? "-Infinity") || (n =? "NaN")
    then JNull else JNum n
  | JArr l => JArr (map serialize l)
  | JObj props => JObj (map (fun '(k, v) => (k, serialize v)) props)
  | _ => j
  end.

(** One property of an object literal handed to res.json.  JSON.stringify
    leaves out a property whose value is undefined or a function;
    Object.prototype has no enumerable own property and prints as the empty
    object. *)
Definition prop (name : string) (v : value) : list (string * json) :=
  match v with
  | VUndefined => []
  | VJson j => [(name, j)]
  | VNative _ => []
  | VObjectPrototype => [(name, JObj [])]
  end.

Definition obj (props : list (list (string * json))) : json :=
  JObj (List.concat props).

(** res.status(code).json(o) and res.json(o) *)
Definition json_status (code : nat) (o : json) : response :=
  mkResponse code (serialize o).
Definition json_ok (o : json) : response := json_status 200 o.

(** The answer of the provider: result.response.text() and
    result.response.promptFeedback?.inputTokenCount (undefined when the
    provider sends no usage data). *)
Record reply : Type := mkReply {
  text : string;
  inputTokenCount : value
}.

(** model.generateContent, up to result.response.text(): it yields a reply
    or throws. *)
Definition gateway : Type := value -> completion reply.

(** The trace of a handler: the prompts sent to the gateway, oldest first,
    and the response. *)
Record outcome : Type := mkOutcome {
  calls : list value;
  sent : response
}.

(** Handler bodies: an exception monad that records gateway calls. *)
Module Eff.

Definition t (A : Type) : Type := list value -> list value * completion A.

Definition ret {A : Type} (a : A) : t A := fun log => (log, Return a).

Definition bind {A B : Type} (m : t A) (k : A -> t B) : t B :=
  fun log =>
    match m log with
    | (log', Throw e) => (log', Throw e)
    | (log', Return a) => k a log'
    end.

Definition lift {A : Type} (c : completion A) : t A := fun log => (log, c).

(** await model.generateContent(prompt) *)
Definition generateContent (gw : gateway) (prompt : value) : t reply :=
  fun log => ((log ++ [prompt])%list, gw prompt).

(** try { body } catch (error) { handler }, for a request that starts
    with no call made. *)
Definition try_catch (m : t response) (handler : exn -> response)
  : outcome :=
  match m [] with
  | (log, Return r) => mkOutcome log r
  | (log, Throw e) => mkOutcome log (handler e)
  end.

End Eff.

Notation "x <~ m ;; k" := (Eff.bind m (fun x => k))
  (at level 61, m at next level, right associativity).

(** A middleware either answers the request or passes it on. *)
Inductive middleware : Type :=
| Respond (r : response)
| Next.

(* ================================================================= *)
(** ** The rich variant *)

Module Rich.

Definition strings (l : list string) : json := JArr (map JStr l).

Definition cbcCurriculum : list (string * json) :=
  [ ("prePrimary",
     JObj [ ("label", JStr "Pre-Primary (PP1-PP2)");
            ("subjects",
             strings [ "Language Activities";
                       "Mathematical Activities";
                       "Environmental Activities";
                       "Psychomotor & Creative Activities";
                       "Religious Education" ]) ]);
    ("lowerPrimary",
     JObj [ ("label", JStr "Lower Primary (Grades 1-3)");
            ("subjects",
             strings [ "English";
                       "Kiswahili";
                       "Mathematics";
                       "Environmental Activities";
                       "Hygiene & Nutrition";
                       "Movement & Creative Activities";
                       "Religious Education" ]) ]);
    ("upperPrimary",
     JObj [ ("label", JStr "Upper Primary (Grades 4-6)");
            ("subjects",
             strings [ "English";
                       "Kiswahili";
                       "Home Science";
                       "Agriculture";
                       "Science & Technology";
                       "Mathematics";
                       "Social Studies";
                       "Creative Arts";
                       "Religious Education";
                       "Physical & Health Education" ]) ]);
    ("juniorSecondary",
     JObj [ ("label", JStr "Junior Secondary (Grades 7-9)");
            ("subjects",
             strings [ "English";
                       "Kiswahili";
                       "Mathematics";
                       "Integrated Science";
                       "Social Studies";
                       "Pre-Technical & Pre-Career Education";
                       "Business Studies";
                       "Agriculture";
                       "Religious Education";
                       "Sports & Physical Education";
                       "Life Skills";
                       "Health Education" ]) ]);
    ("seniorSecondary",
     JObj [ ("label", JStr "Senior Secondary (Grades 10-12)");
            ("pathways",
             JObj [ ("stem",
                     strings [ "English"; "Mathematics"; "Physics";
                               "Chemistry"; "Biology";
                               "Computer Science" ]);
                    ("socialSciences",
                     strings [ "English"; "Mathematics"; "History";
                               "Geography"; "Economics"; "Government" ]);
                    ("performingArts",
                     strings [ "English"; "Mathematics"; "Music";
                               "Visual Arts"; "Performing Arts";
                               "Drama" ]) ]) ]) ].

(** The static grade table: grade code, display label. *)
Definition grades : list (string * value) :=
  [ ("pp1", VStr "Pre-Primary 1");
    ("pp2", VStr "Pre-Primary 2");
    ("grade1", VStr "Grade 1");
    ("grade2", VStr "Grade 2");
    ("grade3", VStr "Grade 3");
    ("grade4", VStr "Grade 4");
    ("grade5", VStr "Grade 5");
    ("grade6", VStr "Grade 6");
    ("grade7", VStr "Grade 7");
    ("grade8", VStr "Grade 8");
    ("grade9", VStr "Grade 9");
    ("grade10", VStr "Grade 10");
    ("grade11", VStr "Grade 11");
    ("grade12", VStr "Grade 12") ].

Definition contentTypes : list string :=
  [ "lesson-summary"; "quiz"; "activity"; "assessment"; "explanation" ].

Definition languages : list string := [ "English"; "Kiswahili" ].

(** The 400 answer of a failed check. *)
Definition failure (error : string) : response :=
  json_status 400
    (obj [ prop "success" (VBool false); prop "error" (VStr error) ]).

Definition InvalidTopic : response :=
  failure "Topic is required and must be a non-empty string".

Definition InvalidGrade : response :=
  failure ("Grade must be one of: " ++ Str.join ", " (Js.keys grades)).

Definition InvalidSubject : response :=
  failure "Subject must be a string".

Definition InvalidContentType : response :=
  failure "Content type must be: lesson-summary, quiz, activity, assessment, or explanation".

Definition InvalidLanguage : response :=
  failure "Language must be: English or Kiswahili".

Definition validateGenerateRequest (b : body) : middleware :=
  let topic := field b "topic" in
  let grade := field b "grade" in
  let subject := field b "subject" in
  let contentType := field b "contentType" in
  let language := field b "language" in
  if negb (Js.truthy topic) || negb (Js.is_string topic) ||
     match topic with
     | VJson (JStr s) => (String.length (Str.trim s) =? 0)%nat
     | _ => false
     end
  then Respond InvalidTopic
  else if negb (Js.truthy grade) ||
          negb (Js.includes (Js.keys grades) grade)
  then Respond InvalidGrade
  else if Js.truthy subject && negb (Js.is_string subject)
  then Respond InvalidSubject
  else if negb (Js.truthy contentType) ||
          negb (Js.includes contentTypes contentType)
  then Respond InvalidContentType
  else if negb (Js.truthy language) ||
          negb (Js.includes languages language)
  then Respond InvalidLanguage
  else Next.

Local Abbreviation dq := Str.dquote.

(** The object literal contentPrompts, once its template literals are
    evaluated. *)
Definition contentPrompts (topic languageContext cbcContext : string)
  : list (string * value) :=
  [ ("lesson-summary",
     VStr ("Create a concise lesson summary for " ++ dq ++ topic ++ dq ++ " " ++ languageContext ++ ". " ++ cbcContext ++ ". Focus on key competencies students should develop. Include 2-3 main learning outcomes and key concepts. Keep it teacher-friendly."));
    ("quiz",
     VStr ("Generate 5 multiple-choice questions for " ++ dq ++ topic ++ dq ++ " " ++ languageContext ++ ". " ++ cbcContext ++ ". Format: Q1) Question? A) Option B) Option C) Option D) Correct Answer: X. Ensure questions test competency-based learning, not just rote memorization."));
    ("activity",
     VStr ("Design a practical, real-life activity for students to learn " ++ dq ++ topic ++ dq ++ " " ++ languageContext ++ ". " ++ cbcContext ++ ". Include: Objective, Materials needed, Step-by-step instructions, Expected outcomes, and Connection to real-world application. Make it engaging and hands-on."));
    ("assessment",
     VStr ("Create a competency-based assessment for " ++ dq ++ topic ++ dq ++ " " ++ languageContext ++ ". " ++ cbcContext ++ ". Include rubric, success criteria, and how to measure student competency development."));
    ("explanation",
     VStr ("Explain " ++ dq ++ topic ++ dq ++ " " ++ languageContext ++ " in simple, relatable terms. " ++ cbcContext ++ ". Use local Kenyan examples, case studies, or real-life scenarios to make content relevant and engaging to students.")) ].

(** language === "Kiswahili" ? k : e *)
Definition languageContext (language : value) (k e : string) : string :=
  if Js.strict_eq_string language "Kiswahili" then k else e.

Definition generateCBCPrompt
           (topic grade subject contentType language : value)
  : completion value :=
  gradeLabel <- Js.member grades grade ;;
  let languageContext := languageContext language "in Kiswahili" "in English" in
  label <- Js.to_string gradeLabel ;;
  subjectPhrase <- (if Js.truthy subject
                    then (s <- Js.to_string subject ;; Return (" in " ++ s))
                    else Return EmptyString) ;;
  let cbcContext :=
    "This is for the Kenyan CBC curriculum at " ++ label ++ subjectPhrase in
  t <- Js.to_string topic ;;
  Js.member (contentPrompts t languageContext cbcContext) contentType.

(** The 500 answer of a catch block. *)
Definition failed (error : string) (e : exn) : response :=
  json_status 500
    (obj [ prop "success" (VBool false);
           prop "error" (VStr error);
           prop "details" (VStr (message e)) ]).

(** The handler of POST /api/generate, after the validator; [now] is
    new Date().toISOString(). *)
Definition generate (gw : gateway) (now : string) (b : body) : outcome :=
  Eff.try_catch
    (let topic := field b "topic" in
     let grade := field b "grade" in
     let subject := field b "subject" in
     let contentType := Js.default (field b "contentType") (VStr "lesson-summary") in
     let language := Js.default (field b "language") (VStr "English") in
     prompt <~ Eff.lift
                 (generateCBCPrompt topic grade subject contentType language) ;;
     result <~ Eff.generateContent gw prompt ;;
     let content := text result in
     gradeLabel <~ Eff.lift (Js.member grades grade) ;;
     Eff.ret
       (json_ok
          (obj [ prop "success" (VBool true);
                 prop "data"
                   (obj [ prop "topic" topic;
                          prop "grade" grade;
                          prop "gradeLabel" gradeLabel;
                          prop "subject" (Js.or_else subject (VStr "General"));
                          prop "contentType" contentType;
                          prop "language" language;
                          prop "content" (VStr content);
                          prop "generatedAt" (VStr now);
                          prop "cbcAligned" (VBool true) ]);
                 prop "metadata"
                   (obj [ prop "model" (VStr "gemini-pro");
                          prop "curriculum" (VStr "Kenyan CBC");
                          prop "inputTokens"
                            (Js.or_else (inputTokenCount result)
                                        (JNum "0")) ]) ])))
    (failed "Failed to generate content").

(** app.post("/api/generate", validateGenerateRequest, handler) *)
Definition post_generate (gw : gateway) (now : string) (b : body) : outcome :=
  match validateGenerateRequest b with
  | Respond r => mkOutcome [] r
  | Next => generate gw now b
  end.

(** The template literals of the three handlers below, as functions of the
    texts spliced into them. *)
Definition teacher_materials_prompt
           (topic gradeLabel languageContext : string) : string :=
  "Create comprehensive teacher materials for " ++ dq ++ topic ++ dq ++ " at " ++ gradeLabel ++ " " ++ languageContext ++ ". Include: 1) Learning objectives aligned with CBC competencies, 2) Lesson outline (30-45 min), 3) Differentiation strategies, 4) Common misconceptions and how to address them, 5) Home support activities. Make it practical and classroom-ready.".

Definition clarify_prompt
           (gradeLabel previousContent question languageContext : string)
  : string :=
  "Based on this CBC content for " ++ gradeLabel ++ ": " ++ dq ++ previousContent ++ dq ++ ", answer this follow-up question: " ++ dq ++ question ++ dq ++ " in " ++ languageContext ++ ". Be clear, age-appropriate, and competency-focused.".

Definition learning_path_prompt
           (topic startLabel endLabel languageContext : string) : string :=
  "Create a learning progression for " ++ dq ++ topic ++ dq ++ " from " ++ startLabel ++ " to " ++ endLabel ++ " " ++ languageContext ++ ". For each level, outline: Competency to develop, Key concepts, Assessment criteria, and Connection to next level. Align with Kenyan CBC principles.".

Definition post_teacher_materials (gw : gateway) (b : body) : outcome :=
  Eff.try_catch
    (let topic := field b "topic" in
     let grade := field b "grade" in
     let subject := field b "subject" in
     let language := Js.default (field b "language") (VStr "English") in
     if negb (Js.truthy topic) || negb (Js.truthy grade)
     then Eff.ret (failure "Topic and grade are required")
     else
       gradeLabel <~ Eff.lift (Js.member grades grade) ;;
       let languageContext :=
         languageContext language "in Kiswahili" "in English" in
       t <~ Eff.lift (Js.to_string topic) ;;
       label <~ Eff.lift (Js.to_string gradeLabel) ;;
       let prompt := teacher_materials_prompt t label languageContext in
       result <~ Eff.generateContent gw (VStr prompt) ;;
       let materials := text result in
       Eff.ret
         (json_ok
            (obj [ prop "success" (VBool true);
                   prop "data"
                     (obj [ prop "topic" topic;
                            prop "grade" grade;
                            prop "gradeLabel" gradeLabel;
                            prop "subject"
                              (Js.or_else subject (VStr "General"));
                            prop "language" language;
                            prop "teacherMaterials" (VStr materials) ]) ])))
    (failed "Failed to generate teacher materials").

Definition post_clarify (gw : gateway) (b : body) : outcome :=
  Eff.try_catch
    (let previousContent := field b "previousContent" in
     let question := field b "question" in
     let grade := field b "grade" in
     let language := Js.default (field b "language") (VStr "English") in
     if negb (Js.truthy previousContent) || negb (Js.truthy question) ||
        negb (Js.truthy grade)
     then Eff.ret (failure "previousContent, question, and grade are required")
     else
       gradeLabel <~ Eff.lift (Js.member grades grade) ;;
       let languageContext := languageContext language "Kiswahili" "English" in
       label <~ Eff.lift (Js.to_string gradeLabel) ;;
       p <~ Eff.lift (Js.to_string previousContent) ;;
       q <~ Eff.lift (Js.to_string question) ;;
       let prompt := clarify_prompt label p q languageContext in
       result <~ Eff.generateContent gw (VStr prompt) ;;
       let clarification := text result in
       Eff.ret
         (json_ok
            (obj [ prop "success" (VBool true);
                   prop "data"
                     (obj [ prop "question" question;
                            prop "clarification" (VStr clarification);
                            prop "grade" grade ]) ])))
    (failed "Failed to generate clarification").

Definition post_learning_path (gw : gateway) (b : body) : outcome :=
  Eff.try_catch
    (let topic := field b "topic" in
     let startGrade := field b "startGrade" in
     let endGrade := field b "endGrade" in
     let subject := field b "subject" in
     let language := Js.default (field b "language") (VStr "English") in
     if negb (Js.truthy topic) || negb (Js.truthy startGrade) ||
        negb (Js.truthy endGrade)
     then Eff.ret (failure "Topic, startGrade, and endGrade are required")
     else
       startLabel <~ Eff.lift (Js.member grades startGrade) ;;
       endLabel <~ Eff.lift (Js.member grades endGrade) ;;
       let languageContext :=
         languageContext language "in Kiswahili" "in English" in
       t <~ Eff.lift (Js.to_string topic) ;;
       from <~ Eff.lift (Js.to_string startLabel) ;;
       to <~ Eff.lift (Js.to_string endLabel) ;;
       let prompt := learning_path_prompt t from to languageContext in
       result <~ Eff.generateContent gw (VStr prompt) ;;
       let learningPath := text result in
       Eff.ret
         (json_ok
            (obj [ prop "success" (VBool true);
                   prop "data"
                     (obj [ prop "topic" topic;
                            prop "startGrade" startLabel;
                            prop "endGrade" endLabel;
                            prop "subject"
                              (Js.or_else subject (VStr "Cross-curricular"));
                            prop "language" language;
                            prop "learningPath" (VStr learningPath) ]) ])))
    (failed "Failed to generate learning path").

(** The labels of the grade table, as JSON.stringify prints the object. *)
Definition gradeLabels : json :=
  obj (map (fun p => prop (fst p) (snd p)) grades).

Definition get_metadata : response :=
  json_ok
    (obj [ prop "success" (VBool true);
           prop "data"
             (obj [ prop "curriculum"
                      (VStr "Kenyan Competency-Based Curriculum (CBC)");
                    prop "supportedGrades" (strings (Js.keys grades));
                    prop "gradeLabels" gradeLabels;
                    prop "cbcLevels"
                      (obj [ prop "prePrimary" (field cbcCurriculum "prePrimary");
                             prop "lowerPrimary" (field cbcCurriculum "lowerPrimary");
                             prop "upperPrimary" (field cbcCurriculum "upperPrimary");
                             prop "juniorSecondary" (field cbcCurriculum "juniorSecondary");
                             prop "seniorSecondary" (field cbcCurriculum "seniorSecondary") ]);
                    prop "supportedContentTypes"
                      (strings [ "lesson-summary"; "quiz"; "activity";
                                 "assessment"; "explanation" ]);
                    prop "supportedLanguages"
                      (strings [ "English"; "Kiswahili" ]);
                    prop "features"
                      (strings [ "CBC-aligned lesson summaries";
                                 "Multiple-choice quizzes";
                                 "Real-life activities";
                                 "Teacher support materials";
                                 "Learning path planning";
                                 "Competency-based assessments" ]) ]) ]).

Definition get_health : response :=
  json_ok
    (obj [ prop "success" (VBool true);
           prop "message" (VStr "Server is running") ]).

End Rich.

(* ================================================================= *)
(** ** The simple variant (src/server.js) *)

Module Simple.

Local Abbreviation dq := Str.dquote.

(** The template literal of the handler, around the topic. *)
Definition prompt_before_topic : string :=
  "
You are an excellent Kenyan CBC Grade 6 teacher who communicates strictly in clear English (no Swahili or code-switching).

Explain the topic ".

Definition prompt_after_topic : string :=
  " simply and provide the following:

1. A 3–4 sentence English summary written in a warm, friendly tone suitable for Grade 6 learners.  
2. Three multiple-choice quiz questions (each with four options and one clearly marked correct answer).  
3. One practical, real-life activity that helps learners understand the topic better.

Respond in **this exact structured format** (use clear labels):

SUMMARY:
...

QUIZ:
1)
2)
3)

ACTIVITY:
...

Do not include any extra introductions, translations, or closing remarks — just the sections above in English.
".

Definition prompt (topic : string) : string :=
  prompt_before_topic ++ dq ++ topic ++ dq ++ prompt_after_topic.

Definition post_gemini (gw : gateway) (b : body) : outcome :=
  Eff.try_catch
    (let topic := field b "topic" in
     blank <~ (if negb (Js.truthy topic) then Eff.ret true
               else (trimmed <~ Eff.lift (Js.call_trim topic) ;;
                     Eff.ret (trimmed =? EmptyString))) ;;
     if (blank : bool)
     then Eff.ret
            (json_status 400
               (obj [ prop "error" (VStr "Please provide a topic.") ]))
     else
       t <~ Eff.lift (Js.to_string topic) ;;
       result <~ Eff.generateContent gw (VStr (prompt t)) ;;
       let text := text result in
       Eff.ret (json_ok (obj [ prop "output" (VStr text) ])))
    (fun _ =>
       json_status 500
         (obj [ prop "error" (VStr "Failed to generate content") ])).

Definition get_root : response :=
  json_ok
    (obj [ prop "message"
             (VStr "CBC Smart Study Assistant Backend is running") ]).

End Simple.

(* ================================================================= *)
(** ** Reading a response *)

Module Client.

(** j[name] on the parsed response. *)
Definition at_key (j : json) (name : string) : option json :=
  match j with
  | JObj props => Js.lookup props name
  | _ => None
  end.

(** response.data[name] *)
Definition data (r : response) (name : string) : option json :=
  match at_key (payload r) "data" with
  | Some d => at_key d name
  | None => None
  end.

(** The grade codes listed by the metadata endpoint. *)
Definition supportedGrades (r : response) : list json :=
  match data r "supportedGrades" with
  | Some (JArr l) => l
  | _ => []
  end.

(** response.error *)
Definition error (r : response) : option json := at_key (payload r) "error".

End Client.

(* ================================================================= *)
(** ** Vocabulary of the statements *)

(** The three checks of the topic, as one condition on the field. *)
Definition topic_ok (v : value) : Prop :=
  exists t, v = VStr t /\ Str.trim t <> EmptyString.

(** The subject of a validated request: a falsy value or a string. *)
Definition subject_ok (subject : value) : Prop :=
  Js.truthy subject = false \/
  exists s, subject = VStr s /\ s <> EmptyString.

(** What a request that reaches the handler looks like. *)
Record Validated (b : body) : Prop := mkValidated {
  valid_topic : topic_ok (field b "topic");
  valid_grade :
    exists g, field b "grade" = VStr g /\ In g (Js.keys Rich.grades);
  valid_subject : subject_ok (field b "subject");
  valid_contentType :
    exists c, field b "contentType" = VStr c /\ In c Rich.contentTypes;
  valid_language :
    exists l, field b "language" = VStr l /\ In l Rich.languages
}.

(** A gateway stubbed to answer every prompt with the same text. *)
Definition stubbed (content : string) (usage : value) : gateway :=
  fun _ => Return (mkReply content usage).

(** The context clause: the label, then the subject phrase if any. *)
Definition cbcContext (label phrase : string) : string :=
  "This is for the Kenyan CBC curriculum at " ++ label ++ phrase.

(** The phrase the composer adds for such a subject. *)
Definition subject_phrase (subject : value) : string :=
  if Js.truthy subject
  then match subject with
       | VJson (JStr s) => " in " ++ s
       | _ => EmptyString
       end
  else EmptyString.

(** The prompt the handler of /api/generate asks the composer for. *)
Definition prompt_of (b : body) : completion value :=
  Rich.generateCBCPrompt
    (field b "topic") (field b "grade") (field b "subject")
    (Js.default (field b "contentType") (VStr "lesson-summary"))
    (Js.default (field b "language") (VStr "English")).

(** The two failures of POST /api/gemini. *)
Definition missing_topic : response :=
  mkResponse 400 (JObj [ ("error", JStr "Please provide a topic.") ]).

Definition generation_failed : response :=
  mkResponse 500 (JObj [ ("error", JStr "Failed to generate content") ]).

(** The text of a Number: Infinity, NaN, or a numeral, which opens with a
    digit or a minus sign. *)
Definition numeral (n : string) : Prop :=
  n = "Infinity" \/ n = "NaN" \/
  exists a rest,
    n = String a rest /\
    In a [ "0"; "1"; "2"; "3"; "4"; "5"; "6"; "7"; "8"; "9"; "-" ]%char.

(** The grade value, turned into a property key, finds nothing: no entry of
    the grade table and no member of Object.prototype. *)
Definition no_label (grade : value) : Prop :=
  exists k,
    Js.to_string grade = Return k /\
    Js.lookup Rich.grades k = None /\
    Js.object_prototype k = VUndefined.

(** The text that stands for the label of a grade value in a prompt. *)
Definition label_text (grade : value) : completion string :=
  gradeLabel <- Js.member Rich.grades grade ;; Js.to_string gradeLabel.

(** The language directive of the three endpoints. *)
Definition directive (b : body) (k e : string) : string :=
  Rich.languageContext (Js.default (field b "language") (VStr "English")) k e.

(** Runs a handler body step by step, splitting on each completion. *)
Ltac run_handler :=
  unfold Eff.try_catch, Eff.bind, Eff.lift, Eff.ret, Eff.generateContent;
  repeat match goal with
         | |- context [ match ?c with Throw _ => _ | Return _ => _ end ] =>
           destruct c
         end.

Ltac not_400 :=
  run_handler;
  cbn [sent status Rich.failed json_status json_ok];
  discriminate.

(** The subject a response reports: the subject of the request when it is
    a non-empty string, the default [d] otherwise. *)
Definition subject_echo (subject : value) (d : string) : string :=
  match subject with
  | VJson (JStr s) => if s =? EmptyString then d else s
  | _ => d
  end.

(** response.data[name], read as a list. *)
Definition listed (r : response) (name : string) : list json :=
  match Client.data r name with
  | Some (JArr l) => l
  | _ => []
  end.

(** What every POST endpoint keeps to: at most one call to the gateway, a
    status among 200, 400 and 500, a 200 only after the one call returned,
    and no call behind a 400. *)
Definition well_behaved (gw : gateway) (out : outcome) : Prop :=
  (List.length (calls out) <= 1)%nat /\
  In (status (sent out)) [ 200; 400; 500 ] /\
  (status (sent out) = 200 ->
   exists p r, calls out = [ p ] /\ gw p = Return r) /\
  (status (sent out) = 400 -> calls out = []).

(** metadata.data.gradeLabels[g], as a client reads it. *)
Definition metadata_label (g : string) : option json :=
  match Client.data Rich.get_metadata "gradeLabels" with
  | Some labels => Client.at_key labels g
  | None => None
  end.

(** The fixed openings of the five templates, up to the quoted topic. *)
Definition template_heads : list string :=
  [ "Create a concise lesson summary for ";
    "Generate 5 multiple-choice questions for ";
    "Design a practical, real-life activity for students to learn ";
    "Create a competency-based assessment for ";
    "Explain " ].

(** Splits a handler on its checks and on each completion, keeping the
    equations, and settles [well_behaved] on every path. *)
Ltac paths :=
  unfold Eff.try_catch, Eff.bind, Eff.lift, Eff.ret, Eff.generateContent;
  repeat match goal with
         | |- context [ match ?c with Throw _ => _ | Return _ => _ end ] =>
           destruct c eqn:?
         end;
  unfold well_behaved;
  cbn [calls sent status Rich.failed Rich.failure json_status json_ok
       app List.length];
  (split; [ lia | ]);
  (split; [ simpl; tauto | ]);
  (split; [ intro; try discriminate; eauto | ]);
  intro; try discriminate; reflexivity.

(* ================================================================= *)
(** ** Facts about strings and conversions *)

Lemma length_zero (s : string) :
  (String.length s =? 0)%nat = true <-> s = EmptyString.
Proof.
  destruct s; simpl; split; intro H; try reflexivity; discriminate H.
Qed.

Lemma trimStart_white_space (w s : string) :
  In w Str.white_space -> Str.trimStart (w ++ s) = Str.trimStart s.
Proof.
  intro H. unfold Str.white_space in H. simpl in H.
  repeat (destruct H as [<- | H]; [ reflexivity | ]).
  contradiction.
Qed.

Lemma trimStart_blank (s : string) :
  Str.blank s -> Str.trimStart s = EmptyString.
Proof.
  induction 1 as [ | w s Hw _ IH ].
  - reflexivity.
  - rewrite trimStart_white_space by exact Hw. exact IH.
Qed.

Lemma trim_blank (s : string) : Str.blank s -> Str.trim s = EmptyString.
Proof.
  intro H. unfold Str.trim. rewrite (trimStart_blank H). reflexivity.
Qed.

Lemma includes_true (l : list string) (v : value) :
  Js.includes l v = true <-> exists s, v = VStr s /\ In s l.
Proof.
  unfold Js.includes. rewrite existsb_exists. split.
  - intros (s & Hin & Heq). destruct v as [ | [ | ? | ? | t | ? | ? ] | ? | ];
      try discriminate Heq.
    simpl in Heq. apply String.eqb_eq in Heq. subst t.
    exists s. split; [ reflexivity | exact Hin ].
  - intros (s & -> & Hin). exists s. split; [ exact Hin | ].
    simpl. apply String.eqb_refl.
Qed.

Lemma includes_false (l : list string) (v : value) :
  (forall s, In s l -> v <> VStr s) -> Js.includes l v = false.
Proof.
  intro H. destruct (Js.includes l v) eqn:E; [ | reflexivity ].
  apply includes_true in E. destruct E as (s & Hv & Hin).
  exfalso. exact (H s Hin Hv).
Qed.

(* ================================================================= *)
(** ** The validator of /api/generate *)

Lemma topic_check_passes (v : value) :
  topic_ok v ->
  negb (Js.truthy v) || negb (Js.is_string v) ||
  match v with
  | VJson (JStr s) => (String.length (Str.trim s) =? 0)%nat
  | _ => false
  end = false.
Proof.
  intros (t & -> & Ht). simpl.
  assert (Hne : t <> EmptyString).
  { intros ->. apply Ht. reflexivity. }
  destruct (t =? EmptyString) eqn:E1.
  { apply String.eqb_eq in E1. contradiction. }
  destruct (String.length (Str.trim t) =? 0)%nat eqn:E2.
  { apply length_zero in E2. contradiction. }
  reflexivity.
Qed.

Lemma topic_check_fails (v : value) :
  ~ topic_ok v ->
  negb (Js.truthy v) || negb (Js.is_string v) ||
  match v with
  | VJson (JStr s) => (String.length (Str.trim s) =? 0)%nat
  | _ => false
  end = true.
Proof.
  intro H. destruct v as [ | [ | b | n | t | l | p ] | name | ]; simpl;
    try reflexivity; try (rewrite orb_true_r; reflexivity).
  destruct (String.length (Str.trim t) =? 0)%nat eqn:E.
  - apply orb_true_r.
  - exfalso. apply H. exists t. split; [ reflexivity | ].
    intro Ht. apply length_zero in Ht. congruence.
Qed.

Lemma grade_check_passes (v : value) (g : string) :
  v = VStr g -> In g (Js.keys Rich.grades) ->
  negb (Js.truthy v) || negb (Js.includes (Js.keys Rich.grades) v) = false.
Proof.
  intros -> Hin.
  assert (Hinc : Js.includes (Js.keys Rich.grades) (VStr g) = true).
  { apply includes_true. exists g. split; [ reflexivity | exact Hin ]. }
  rewrite Hinc.
  assert (Hne : g <> EmptyString).
  { intros ->. simpl in Hin. intuition discriminate. }
  simpl. destruct (g =? EmptyString) eqn:E.
  - apply String.eqb_eq in E. contradiction.
  - reflexivity.
Qed.

Lemma grade_check_fails (v : value) :
  (forall g, In g (Js.keys Rich.grades) -> v <> VStr g) ->
  negb (Js.truthy v) || negb (Js.includes (Js.keys Rich.grades) v) = true.
Proof.
  intro H. rewrite (includes_false _ H). apply orb_true_r.
Qed.

Lemma validated_iff (b : body) :
  Rich.validateGenerateRequest b = Next <-> Validated b.
Proof.
  unfold Rich.validateGenerateRequest. split.
  - intro H.
    match type of H with (if ?c then _ else _) = _ =>
      destruct c eqn:Etopic; [ discriminate H | ] end.
    match type of H with (if ?c then _ else _) = _ =>
      destruct c eqn:Egrade; [ discriminate H | ] end.
    match type of H with (if ?c then _ else _) = _ =>
      destruct c eqn:Esubject; [ discriminate H | ] end.
    match type of H with (if ?c then _ else _) = _ =>
      destruct c eqn:Ect; [ discriminate H | ] end.
    match type of H with (if ?c then _ else _) = _ =>
      destruct c eqn:Elang; [ discriminate H | ] end.
    clear H. constructor.
    + destruct (field b "topic") as [ | [ | ? | ? | t | ? | ? ] | ? | ];
        simpl in Etopic; try discriminate Etopic;
        try (rewrite orb_true_r in Etopic; discriminate Etopic).
      exists t. split; [ reflexivity | ].
      intro Ht. rewrite Ht in Etopic. simpl in Etopic.
      rewrite orb_true_r in Etopic. discriminate Etopic.
    + apply orb_false_iff in Egrade. destruct Egrade as [_ E].
      apply negb_false_iff, includes_true in E. exact E.
    + apply andb_false_iff in Esubject. destruct Esubject as [E | E].
      * left. exact E.
      * apply negb_false_iff in E.
        destruct (field b "subject") as [ | [ | ? | ? | s | ? | ? ] | ? | ];
          try discriminate E.
        destruct (String.eqb_spec s EmptyString) as [-> | Hs].
        -- left. reflexivity.
        -- right. exists s. split; [ reflexivity | exact Hs ].
    + apply orb_false_iff in Ect. destruct Ect as [_ E].
      apply negb_false_iff, includes_true in E. exact E.
    + apply orb_false_iff in Elang. destruct Elang as [_ E].
      apply negb_false_iff, includes_true in E. exact E.
  - intros [Ht (g & Hg & Hgin) Hs (c & Hc & Hcin) (l & Hl & Hlin)].
    rewrite (topic_check_passes Ht).
    rewrite (grade_check_passes Hg Hgin).
    assert (Es : Js.truthy (field b "subject") &&
                 negb (Js.is_string (field b "subject")) = false).
    { destruct Hs as [E | (s & -> & _)].
      - rewrite E. reflexivity.
      - apply andb_false_r. }
    rewrite Es.
    assert (Ec : negb (Js.truthy (field b "contentType")) ||
                 negb (Js.includes Rich.contentTypes (field b "contentType"))
                 = false).
    { rewrite Hc. simpl in Hcin.
      repeat (destruct Hcin as [<- | Hcin]; [ reflexivity | ]).
      contradiction. }
    rewrite Ec.
    assert (El : negb (Js.truthy (field b "language")) ||
                 negb (Js.includes Rich.languages (field b "language"))
                 = false).
    { rewrite Hl. simpl in Hlin.
      repeat (destruct Hlin as [<- | Hlin]; [ reflexivity | ]).
      contradiction. }
    rewrite El. reflexivity.
Qed.

Lemma generate_status (gw : gateway) (now : string) (b : body) :
  status (sent (Rich.generate gw now b)) = 200 \/
  status (sent (Rich.generate gw now b)) = 500.
Proof.
  unfold Rich.generate, Eff.try_catch, Eff.bind, Eff.lift,
    Eff.generateContent, Eff.ret.
  destruct (Rich.generateCBCPrompt _ _ _ _ _) as [ e | prompt ];
    [ right; reflexivity | ].
  destruct (gw prompt) as [ e | result ]; [ right; reflexivity | ].
  destruct (Js.member Rich.grades _) as [ e | label ];
    [ right; reflexivity | left; reflexivity ].
Qed.

(** C2: a request whose topic is absent, is not a string, or is a string of
    white space only is answered by the validator with the InvalidTopic
    failure, status 400, and the gateway is never called. *)
Theorem invalid_topic_rejected (gw : gateway) (now : string) (b : body) :
  match field b "topic" with
  | VJson (JStr s) => Str.blank s
  | _ => True
  end ->
  Rich.validateGenerateRequest b = Respond Rich.InvalidTopic /\
  sent (Rich.post_generate gw now b) = Rich.InvalidTopic /\
  status Rich.InvalidTopic = 400 /\
  Client.error Rich.InvalidTopic =
    Some (JStr "Topic is required and must be a non-empty string") /\
  calls (Rich.post_generate gw now b) = [].
Proof.
  intro H.
  assert (Hv : Rich.validateGenerateRequest b = Respond Rich.InvalidTopic).
  { unfold Rich.validateGenerateRequest.
    rewrite topic_check_fails; [ reflexivity | ].
    intros (t & Ht & Hne). rewrite Ht in H. simpl in H.
    apply Hne, trim_blank, H. }
  unfold Rich.post_generate. rewrite Hv.
  repeat split; reflexivity.
Qed.

Lemma invalid_topic_rejected_witness :
  let b := [ ("topic", JStr "   "); ("grade", JStr "grade6") ] in
  let gw : gateway := fun _ => Return (mkReply "unused" VUndefined) in
  sent (Rich.post_generate gw "2025-01-01T00:00:00.000Z" b)
    = Rich.InvalidTopic /\
  calls (Rich.post_generate gw "2025-01-01T00:00:00.000Z" b) = [].
Proof.
  intros b gw.
  assert (Hblank : Str.blank "   ").
  { apply (@Str.blank_ws " " "  "); [ simpl; tauto | ].
    apply (@Str.blank_ws " " " "); [ simpl; tauto | ].
    apply (@Str.blank_ws " " EmptyString); [ simpl; tauto | ].
    apply Str.blank_empty. }
  destruct (@invalid_topic_rejected gw "2025-01-01T00:00:00.000Z" b Hblank)
    as (_ & Hsent & _ & _ & Hcalls).
  split; [ exact Hsent | exact Hcalls ].
Defined.

(** C3: with a valid topic, a grade that is not one of the known codes
    (an absent grade included) is answered with the InvalidGrade failure,
    whose message lists every code of the grade table: pp1, pp2 and grade1
    to grade12. *)
Theorem invalid_grade_rejected (gw : gateway) (now : string) (b : body) :
  topic_ok (field b "topic") ->
  (forall g, In g (Js.keys Rich.grades) -> field b "grade" <> VStr g) ->
  Rich.validateGenerateRequest b = Respond Rich.InvalidGrade /\
  Rich.post_generate gw now b = mkOutcome [] Rich.InvalidGrade /\
  status Rich.InvalidGrade = 400 /\
  Js.keys Rich.grades =
    [ "pp1"; "pp2"; "grade1"; "grade2"; "grade3"; "grade4"; "grade5";
      "grade6"; "grade7"; "grade8"; "grade9"; "grade10"; "grade11";
      "grade12" ] /\
  Client.error Rich.InvalidGrade =
    Some (JStr "Grade must be one of: pp1, pp2, grade1, grade2, grade3, grade4, grade5, grade6, grade7, grade8, grade9, grade10, grade11, grade12") /\
  forall g, In g (Js.keys Rich.grades) ->
    exists m, Client.error Rich.InvalidGrade = Some (JStr m) /\
              Str.contains g m = true.
Proof.
  intros Htopic Hgrade.
  assert (Hv : Rich.validateGenerateRequest b = Respond Rich.InvalidGrade).
  { unfold Rich.validateGenerateRequest.
    rewrite (topic_check_passes Htopic).
    rewrite (grade_check_fails Hgrade). reflexivity. }
  split; [ exact Hv | ].
  split; [ unfold Rich.post_generate; rewrite Hv; reflexivity | ].
  split; [ reflexivity | ].
  split; [ reflexivity | ].
  split; [ reflexivity | ].
  intros g Hin. eexists. split; [ reflexivity | ].
  simpl in Hin.
  repeat (destruct Hin as [<- | Hin]; [ vm_compute; reflexivity | ]).
  contradiction.
Qed.

Lemma invalid_grade_rejected_witness :
  let b := [ ("topic", JStr "X"); ("grade", JStr "invalidgrade");
             ("contentType", JStr "quiz"); ("language", JStr "English") ] in
  let gw : gateway := fun _ => Return (mkReply "unused" VUndefined) in
  Rich.post_generate gw "2025-01-01T00:00:00.000Z" b
    = mkOutcome [] Rich.InvalidGrade.
Proof.
  intros b gw.
  refine (proj1 (proj2
    (@invalid_grade_rejected gw "2025-01-01T00:00:00.000Z" b _ _))).
  - exists "X". split; [ reflexivity | vm_compute; discriminate ].
  - intros g Hin. simpl in Hin.
    repeat (destruct Hin as [<- | Hin]; [ vm_compute; discriminate | ]).
    contradiction.
Defined.

(** The failures of the validator are told apart by their messages. *)
Lemma other_failures_differ :
  Rich.InvalidTopic <> Rich.InvalidGrade /\
  Rich.InvalidSubject <> Rich.InvalidGrade /\
  Rich.InvalidContentType <> Rich.InvalidGrade /\
  Rich.InvalidLanguage <> Rich.InvalidGrade.
Proof.
  repeat split; intro H; apply (f_equal Client.error) in H;
    vm_compute in H; discriminate H.
Qed.

(** C7: every code in the supportedGrades list of GET /api/metadata, sent
    back as the grade of a generate request, passes the grade check of the
    validator: neither the validator nor the endpoint answers InvalidGrade. *)
Theorem supported_grades_pass
        (gw : gateway) (now : string) (b : body) (g : string) :
  In (JStr g) (Client.supportedGrades Rich.get_metadata) ->
  field b "grade" = VStr g ->
  negb (Js.truthy (field b "grade")) ||
  negb (Js.includes (Js.keys Rich.grades) (field b "grade")) = false /\
  Rich.validateGenerateRequest b <> Respond Rich.InvalidGrade /\
  sent (Rich.post_generate gw now b) <> Rich.InvalidGrade.
Proof.
  intros Hin Hg.
  assert (Hkey : In g (Js.keys Rich.grades)).
  { change (Client.supportedGrades Rich.get_metadata)
      with (map JStr (Js.keys Rich.grades)) in Hin.
    apply in_map_iff in Hin. destruct Hin as (k & Hk & Hkin).
    injection Hk as ->. exact Hkin. }
  pose proof (grade_check_passes Hg Hkey) as Hcheck.
  destruct other_failures_differ as (Ht & Hs & Hc & Hl).
  assert (Hv : Rich.validateGenerateRequest b <> Respond Rich.InvalidGrade).
  { unfold Rich.validateGenerateRequest. rewrite Hcheck.
    repeat match goal with
           | |- (if ?c then _ else _) <> _ => destruct c
           end; congruence. }
  split; [ exact Hcheck | ]. split; [ exact Hv | ].
  unfold Rich.post_generate.
  destruct (Rich.validateGenerateRequest b) as [ r | ] eqn:E.
  - simpl. congruence.
  - intro H. destruct (generate_status gw now b) as [H200 | H500];
      rewrite H in *; discriminate.
Qed.

Lemma supported_grades_pass_witness :
  let b := [ ("topic", JStr "Fractions"); ("grade", JStr "grade12");
             ("contentType", JStr "quiz"); ("language", JStr "English") ] in
  let gw : gateway := fun _ => Return (mkReply "Q1) ..." VUndefined) in
  Rich.validateGenerateRequest b <> Respond Rich.InvalidGrade.
Proof.
  intros b gw.
  refine (proj1 (proj2
    (@supported_grades_pass gw "2025-01-01T00:00:00.000Z" b "grade12" _ _))).
  - vm_compute. tauto.
  - reflexivity.
Defined.

(** C6: the scenario of the specification.  The body names no subject; the
    stubbed gateway answers Q1) ... whatever usage data it reports and
    whatever the clock says. *)
Theorem generate_quiz_scenario (usage : value) (now : string) :
  let b := [ ("topic", JStr "Photosynthesis"); ("grade", JStr "grade6");
             ("contentType", JStr "quiz"); ("language", JStr "English") ] in
  let out := Rich.post_generate (stubbed "Q1) ..." usage) now b in
  status (sent out) = 200 /\
  Client.at_key (payload (sent out)) "success" = Some (JBool true) /\
  Client.at_key (payload (sent out)) "data" =
    Some (JObj [ ("topic", JStr "Photosynthesis");
                 ("grade", JStr "grade6");
                 ("gradeLabel", JStr "Grade 6");
                 ("subject", JStr "General");
                 ("contentType", JStr "quiz");
                 ("language", JStr "English");
                 ("content", JStr "Q1) ...");
                 ("generatedAt", JStr now);
                 ("cbcAligned", JBool true) ]) /\
  calls out =
    [ VStr ("Generate 5 multiple-choice questions for " ++ Str.dquote ++ "Photosynthesis" ++ Str.dquote ++ " in English. This is for the Kenyan CBC curriculum at Grade 6. Format: Q1) Question? A) Option B) Option C) Option D) Correct Answer: X. Ensure questions test competency-based learning, not just rote memorization.") ].
Proof.
  intros b out. subst out b. repeat split; vm_compute; reflexivity.
Qed.

(** The check of an enumerated field fails exactly when the field is not
    one of the listed strings; an absent field fails it. *)
Lemma enum_check (l : list string) (v : value) :
  ~ In EmptyString l ->
  negb (Js.truthy v) || negb (Js.includes l v) = false
  <-> exists s, v = VStr s /\ In s l.
Proof.
  intro Hl. split.
  - intro H. apply orb_false_iff in H. destruct H as [_ H].
    apply negb_false_iff in H. apply includes_true. exact H.
  - intros (s & -> & Hin).
    assert (Hinc : Js.includes l (VStr s) = true).
    { apply includes_true. exists s. split; [ reflexivity | exact Hin ]. }
    rewrite Hinc. cbn [Js.truthy VStr].
    destruct (String.eqb_spec s EmptyString) as [-> | _];
      [ contradiction | reflexivity ].
Qed.

(** A request with a valid topic and grade that names no contentType is
    turned away by the validator with InvalidContentType, and one that
    names a contentType but no language with InvalidLanguage; the gateway
    is not called.  The defaults lesson-summary and English of the handler
    are only seen when the handler runs without the validator in front of
    it. *)
Lemma absent_contentType_language_rejected :
  let gw := stubbed "Summary" VUndefined in
  let now := "2025-01-01T00:00:00.000Z" in
  let b1 := [ ("topic", JStr "Photosynthesis"); ("grade", JStr "grade6") ] in
  let b2 := [ ("topic", JStr "Photosynthesis"); ("grade", JStr "grade6");
              ("contentType", JStr "quiz") ] in
  field b1 "contentType" = VUndefined /\
  Rich.post_generate gw now b1 = mkOutcome [] Rich.InvalidContentType /\
  field b2 "language" = VUndefined /\
  Rich.post_generate gw now b2 = mkOutcome [] Rich.InvalidLanguage /\
  status Rich.InvalidContentType = 400 /\
  status Rich.InvalidLanguage = 400 /\
  Client.data (sent (Rich.generate gw now b1)) "contentType"
  = Some (JStr "lesson-summary") /\
  Client.data (sent (Rich.generate gw now b1)) "language"
  = Some (JStr "English").
Proof.
  intros gw now b1 b2. subst gw now b1 b2.
  repeat split; vm_compute; reflexivity.
Qed.

(* ================================================================= *)
(** ** The prompt composer *)

Lemma append_assoc (a b c : string) : (a ++ b) ++ c = a ++ b ++ c.
Proof.
  induction a as [ | x a IH ]; simpl; [ reflexivity | ].
  rewrite IH. reflexivity.
Qed.

(** Every template has one slot for the context clause, followed by a full
    stop; what stands before and after the slot depends on the content type,
    the topic and the language directive only. *)
Lemma template_frame (t lc c : string) :
  In c Rich.contentTypes ->
  exists pre post, forall cbc,
    Js.lookup (Rich.contentPrompts t lc cbc) c
    = Some (VStr (pre ++ cbc ++ ". " ++ post)).
Proof.
  intro Hin. simpl in Hin.
  destruct Hin as [<- | [<- | [<- | [<- | [<- | []]]]]].
  - exists ("Create a concise lesson summary for " ++ Str.dquote ++ t ++ Str.dquote ++ " " ++ lc ++ ". "). eexists. intro cbc.
    rewrite !append_assoc. reflexivity.
  - exists ("Generate 5 multiple-choice questions for " ++ Str.dquote ++ t ++ Str.dquote ++ " " ++ lc ++ ". "). eexists. intro cbc.
    rewrite !append_assoc. reflexivity.
  - exists ("Design a practical, real-life activity for students to learn " ++ Str.dquote ++ t ++ Str.dquote ++ " " ++ lc ++ ". "). eexists. intro cbc.
    rewrite !append_assoc. reflexivity.
  - exists ("Create a competency-based assessment for " ++ Str.dquote ++ t ++ Str.dquote ++ " " ++ lc ++ ". "). eexists. intro cbc.
    rewrite !append_assoc. reflexivity.
  - exists ("Explain " ++ Str.dquote ++ t ++ Str.dquote ++ " " ++ lc ++ " in simple, relatable terms. "). eexists. intro cbc.
    rewrite !append_assoc. reflexivity.
Qed.

Lemma member_own (props : list (string * value)) (k : string) (v : value) :
  Js.lookup props k = Some v -> Js.member props (VStr k) = Return v.
Proof. intro H. unfold Js.member. simpl. rewrite H. reflexivity. Qed.

Lemma member_missing (props : list (string * value)) (k : string) :
  Js.lookup props k = None ->
  Js.member props (VStr k) = Return (Js.object_prototype k).
Proof. intro H. unfold Js.member. simpl. rewrite H. reflexivity. Qed.

(** The composer on a string topic, a string grade, a subject as the
    validator lets it through and a known content type: it returns the
    template of the content type, its slot filled with the context clause
    built from whatever the grade table lookup yields. *)
Lemma compose_frame
      (t g : string) (subject language : value) (c : string)
      (gradeLabel : value) (label pre post : string) :
  (forall cbc,
      Js.lookup
        (Rich.contentPrompts
           t (Rich.languageContext language "in Kiswahili" "in English")
           cbc) c
      = Some (VStr (pre ++ cbc ++ ". " ++ post))) ->
  subject_ok subject ->
  Js.member Rich.grades (VStr g) = Return gradeLabel ->
  Js.to_string gradeLabel = Return label ->
  Rich.generateCBCPrompt (VStr t) (VStr g) subject (VStr c) language
  = Return (VStr (pre ++ cbcContext label (subject_phrase subject)
                      ++ ". " ++ post)).
Proof.
  intros Hframe Hsubject Hmember Hlabel.
  unfold Rich.generateCBCPrompt. rewrite Hmember. cbn [bind].
  rewrite Hlabel. cbn [bind].
  assert (Hphrase :
            (if Js.truthy subject
             then (s <- Js.to_string subject ;; Return (" in " ++ s))
             else Return EmptyString)
            = Return (subject_phrase subject)).
  { unfold subject_phrase.
    destruct Hsubject as [E | (s & -> & Hs)].
    - rewrite E. reflexivity.
    - destruct (Js.truthy (VStr s)); reflexivity. }
  rewrite Hphrase. cbn [bind].
  change (Js.to_string (VStr t)) with (Return (A := string) t). cbn [bind].
  rewrite (member_own _ _ (Hframe _)). reflexivity.
Qed.

(** C4, as the code has it: the composer has no check of the label.  For a
    string topic, a subject as the validator lets it through and a known
    content type, a grade code with an entry in the grade table is resolved
    to the label of that entry; a grade code with no entry, and that names
    no member of Object.prototype either, does not make the composer fail:
    the prompt is produced with the text undefined where the label goes. *)
Theorem composer_grade_label
        (t g : string) (subject language : value) (c : string) :
  subject_ok subject ->
  In c Rich.contentTypes ->
  exists pre post,
    (forall cbc,
        Js.lookup
          (Rich.contentPrompts
             t (Rich.languageContext language "in Kiswahili" "in English")
             cbc) c
        = Some (VStr (pre ++ cbc ++ ". " ++ post))) /\
    (forall label,
        Js.lookup Rich.grades g = Some (VStr label) ->
        Rich.generateCBCPrompt (VStr t) (VStr g) subject (VStr c) language
        = Return (VStr (pre ++ cbcContext label (subject_phrase subject)
                            ++ ". " ++ post))) /\
    (Js.lookup Rich.grades g = None ->
     Js.object_prototype g = VUndefined ->
     Rich.generateCBCPrompt (VStr t) (VStr g) subject (VStr c) language
     = Return (VStr (pre ++ cbcContext "undefined" (subject_phrase subject)
                         ++ ". " ++ post))).
Proof.
  intros Hsubject Hc.
  destruct (template_frame
              t (Rich.languageContext language "in Kiswahili" "in English")
              Hc) as (pre & post & Hframe).
  exists pre, post. split; [ exact Hframe | ]. split.
  - intros label Hlabel.
    eapply compose_frame;
      [ exact Hframe | exact Hsubject | apply member_own; exact Hlabel
      | reflexivity ].
  - intros Hnone Hproto.
    eapply compose_frame;
      [ exact Hframe | exact Hsubject | apply member_missing; exact Hnone
      | rewrite Hproto; reflexivity ].
Qed.

Lemma composer_grade_label_witness :
  exists pre post,
    Rich.generateCBCPrompt
      (VStr "Photosynthesis") (VStr "grade13") (VStr "Science")
      (VStr "quiz") (VStr "English")
    = Return (VStr (pre ++ cbcContext "undefined" " in Science"
                        ++ ". " ++ post)).
Proof.
  assert (Hsubject : subject_ok (VStr "Science")).
  { right. exists "Science". split; [ reflexivity | discriminate ]. }
  assert (Hc : In "quiz" Rich.contentTypes).
  { simpl. tauto. }
  destruct (@composer_grade_label
              "Photosynthesis" "grade13" (VStr "Science") (VStr "English")
              "quiz" Hsubject Hc)
    as (pre & post & _ & _ & Hunknown).
  exists pre, post. exact (Hunknown eq_refl eq_refl).
Defined.

(** The composer run on a grade code that the grade table does not have:
    it returns a prompt, the label reading undefined; it does not fail. *)
Lemma unknown_grade_still_prompts :
  Js.lookup Rich.grades "grade13" = None /\
  Rich.generateCBCPrompt
    (VStr "Photosynthesis") (VStr "grade13") VUndefined
    (VStr "quiz") (VStr "English")
  = Return (VStr ("Generate 5 multiple-choice questions for " ++ Str.dquote ++ "Photosynthesis" ++ Str.dquote ++ " in English. This is for the Kenyan CBC curriculum at undefined. Format: Q1) Question? A) Option B) Option C) Option D) Correct Answer: X. Ensure questions test competency-based learning, not just rote memorization.")) /\
  ~ exists e,
      Rich.generateCBCPrompt
        (VStr "Photosynthesis") (VStr "grade13") VUndefined
        (VStr "quiz") (VStr "English") = Throw e.
Proof.
  split; [ reflexivity | ]. split; [ vm_compute; reflexivity | ].
  intros (e & H). vm_compute in H. discriminate H.
Qed.

Lemma append_empty_r (s : string) : s ++ EmptyString = s.
Proof.
  induction s as [ | a s IH ]; simpl; [ reflexivity | ].
  rewrite IH. reflexivity.
Qed.

Lemma lookup_In {A : Type} (props : list (string * A)) (k : string) (v : A) :
  Js.lookup props k = Some v -> In (k, v) props.
Proof.
  unfold Js.lookup. intro H.
  destruct (find (fun p => fst p =? k) props) as [ [k' v'] | ] eqn:E;
    [ | discriminate H ].
  simpl in H. injection H as ->.
  apply find_some in E. destruct E as [Hin Hk].
  simpl in Hk. apply String.eqb_eq in Hk. subst k'. exact Hin.
Qed.

Lemma In_lookup {A : Type} (props : list (string * A)) (k : string) :
  In k (Js.keys props) -> exists v, Js.lookup props k = Some v.
Proof.
  unfold Js.keys, Js.lookup. intro H.
  apply in_map_iff in H. destruct H as ([k' v'] & Hk & Hin).
  simpl in Hk. subst k'.
  destruct (find (fun p => fst p =? k) props) as [ [k1 v1] | ] eqn:E.
  - exists v1. reflexivity.
  - exfalso. apply (find_none _ _ E) in Hin. simpl in Hin.
    rewrite String.eqb_refl in Hin. discriminate Hin.
Qed.

(** Every entry of the grade table holds a label, which is a string. *)
Lemma grade_entry_is_label (g : string) (v : value) :
  Js.lookup Rich.grades g = Some v -> exists label, v = VStr label.
Proof.
  intro H. apply lookup_In in H. simpl in H.
  repeat (destruct H as [H | H];
          [ injection H as _ <-; eexists; reflexivity | ]).
  contradiction.
Qed.

Lemma known_grade_label (g : string) :
  In g (Js.keys Rich.grades) ->
  exists label, Js.lookup Rich.grades g = Some (VStr label).
Proof.
  intro H. apply In_lookup in H. destruct H as (v & Hv).
  pose proof Hv as Hlabel. apply grade_entry_is_label in Hlabel.
  destruct Hlabel as (label & ->).
  exists label. exact Hv.
Qed.

(** C5, as the code has it: for every request the validator lets through,
    the prompt is the template of the content type with the context clause
    in its slot.  When the subject is omitted (or is falsy: the empty text,
    null, false, 0) the clause is
    This is for the Kenyan CBC curriculum at LABEL
    and the full stop of the template follows at once; when the subject is
    a non-empty text the clause goes on with [ in SUBJECT], the subject
    taken as it is. *)
Theorem context_clause_subject (b : body) :
  Rich.validateGenerateRequest b = Next ->
  exists t g label c pre post,
    field b "topic" = VStr t /\
    field b "grade" = VStr g /\
    Js.lookup Rich.grades g = Some (VStr label) /\
    field b "contentType" = VStr c /\
    (forall cbc,
        Js.lookup
          (Rich.contentPrompts
             t (Rich.languageContext (field b "language")
                                     "in Kiswahili" "in English")
             cbc) c
        = Some (VStr (pre ++ cbc ++ ". " ++ post))) /\
    (Js.truthy (field b "subject") = false ->
     prompt_of b
     = Return (VStr (pre ++ ("This is for the Kenyan CBC curriculum at "
                              ++ label)
                         ++ ". " ++ post))) /\
    (forall s,
        field b "subject" = VStr s -> s <> EmptyString ->
        prompt_of b
        = Return (VStr (pre ++ ("This is for the Kenyan CBC curriculum at "
                                 ++ label ++ " in " ++ s)
                            ++ ". " ++ post))).
Proof.
  intro Hv. apply validated_iff in Hv.
  destruct Hv as [(t & Ht & _) (g & Hg & Hgin) Hs (c & Hc & Hcin)
                  (l & Hl & _)].
  pose proof Hgin as Hlabel. apply known_grade_label in Hlabel.
  destruct Hlabel as (label & Hlabel).
  destruct (template_frame
              t (Rich.languageContext (field b "language")
                                      "in Kiswahili" "in English")
              Hcin) as (pre & post & Hframe).
  exists t, g, label, c, pre, post.
  repeat (split; [ assumption | ]).
  assert (Hprompt :
            prompt_of b
            = Return (VStr (pre ++ cbcContext
                                  label (subject_phrase (field b "subject"))
                                ++ ". " ++ post))).
  { unfold prompt_of. rewrite Ht, Hg, Hc, Hl. cbn [Js.default VStr].
    rewrite <- Hl.
    eapply compose_frame;
      [ exact Hframe | exact Hs | apply member_own; exact Hlabel
      | reflexivity ]. }
  split.
  - intro Hfalsy. rewrite Hprompt. unfold cbcContext, subject_phrase.
    rewrite Hfalsy, append_empty_r. reflexivity.
  - intros s Hsub Hne. rewrite Hprompt. unfold cbcContext, subject_phrase.
    rewrite Hsub. simpl Js.truthy.
    destruct (String.eqb_spec s EmptyString) as [E | _];
      [ contradiction | reflexivity ].
Qed.

Lemma context_clause_subject_witness :
  let b := [ ("topic", JStr "Photosynthesis"); ("grade", JStr "grade6");
             ("subject", JStr "Science");
             ("contentType", JStr "quiz"); ("language", JStr "English") ] in
  exists pre post,
    prompt_of b
    = Return (VStr (pre ++ ("This is for the Kenyan CBC curriculum at "
                             ++ "Grade 6" ++ " in " ++ "Science")
                        ++ ". " ++ post)).
Proof.
  intro b.
  assert (Hv : Rich.validateGenerateRequest b = Next).
  { vm_compute. reflexivity. }
  destruct (@context_clause_subject b Hv)
    as (t & g & label & c & pre & post & _ & Hg & Hlabel & _ & _ & _ & Hs).
  exists pre, post.
  injection Hg as <-.
  injection Hlabel as <-.
  apply Hs; [ reflexivity | discriminate ].
Defined.

(** A request the validator lets through, whose subject is present and is
    the empty text: the prompt carries no subject phrase. *)
Lemma empty_subject_is_dropped :
  let b := [ ("topic", JStr "Photosynthesis"); ("grade", JStr "grade6");
             ("subject", JStr EmptyString);
             ("contentType", JStr "quiz"); ("language", JStr "English") ] in
  Rich.validateGenerateRequest b = Next /\
  Js.lookup b "subject" = Some (JStr EmptyString) /\
  exists p,
    prompt_of b = Return (VStr p) /\
    p = "Generate 5 multiple-choice questions for " ++ Str.dquote ++ "Photosynthesis" ++ Str.dquote ++ " in English. This is for the Kenyan CBC curriculum at Grade 6. Format: Q1) Question? A) Option B) Option C) Option D) Correct Answer: X. Ensure questions test competency-based learning, not just rote memorization." /\
    Str.contains "This is for the Kenyan CBC curriculum at Grade 6 in " p
    = false /\
    Str.contains " in ." p = false.
Proof.
  intro b. split; [ vm_compute; reflexivity | ].
  split; [ reflexivity | ].
  eexists. split; [ vm_compute; reflexivity | ].
  repeat split; vm_compute; reflexivity.
Qed.

(** Two distinct content types select templates that differ, whatever is
    spliced in: they already differ before the topic. *)
Lemma template_distinct (t lc cbc c1 c2 : string) (p1 p2 : value) :
  In c1 Rich.contentTypes -> In c2 Rich.contentTypes -> c1 <> c2 ->
  Js.lookup (Rich.contentPrompts t lc cbc) c1 = Some p1 ->
  Js.lookup (Rich.contentPrompts t lc cbc) c2 = Some p2 ->
  p1 <> p2.
Proof.
  intros H1 H2 Hne L1 L2 Heq. subst p2. simpl in H1, H2.
  destruct H1 as [<- | [<- | [<- | [<- | [<- | []]]]]];
    destruct H2 as [<- | [<- | [<- | [<- | [<- | []]]]]];
    try (exfalso; apply Hne; reflexivity);
    cbn in L1, L2; rewrite <- L1 in L2; discriminate L2.
Qed.

(** Whatever a string key finds in the grade table, own or inherited,
    prints. *)
Lemma grade_lookup_prints (g : string) :
  exists gradeLabel label,
    Js.member Rich.grades (VStr g) = Return gradeLabel /\
    Js.to_string gradeLabel = Return label.
Proof.
  destruct (Js.lookup Rich.grades g) as [ v | ] eqn:E.
  - pose proof E as Hv. apply grade_entry_is_label in Hv.
    destruct Hv as (label & ->).
    exists (VStr label), label. split; [ | reflexivity ].
    apply member_own. exact E.
  - exists (Js.object_prototype g).
    assert (H : exists label,
               Js.to_string (Js.object_prototype g) = Return label).
    { unfold Js.object_prototype.
      repeat match goal with
             | |- context [ if ?c then _ else _ ] => destruct c
             end; eexists; reflexivity. }
    destruct H as (label & H). exists label.
    split; [ apply member_missing; exact E | exact H ].
Qed.

(** C8: the composer is a function of its five arguments, so two runs on
    the same tuple yield the same result; and on a string topic, a string
    grade and a subject as the validator lets it through, it returns a
    prompt string for each known content type, two distinct content types
    giving two distinct prompts. *)
Theorem composer_deterministic_distinct
        (t g : string) (subject language : value) (c1 c2 : string) :
  subject_ok subject ->
  In c1 Rich.contentTypes ->
  In c2 Rich.contentTypes ->
  (forall topic grade subject contentType language
          topic' grade' subject' contentType' language',
      (topic, grade, subject, contentType, language)
      = (topic', grade', subject', contentType', language') ->
      Rich.generateCBCPrompt topic grade subject contentType language
      = Rich.generateCBCPrompt topic' grade' subject' contentType' language')
  /\
  exists p1 p2,
    Rich.generateCBCPrompt (VStr t) (VStr g) subject (VStr c1) language
    = Return (VStr p1) /\
    Rich.generateCBCPrompt (VStr t) (VStr g) subject (VStr c2) language
    = Return (VStr p2) /\
    (c1 <> c2 -> p1 <> p2).
Proof.
  intros Hsubject H1 H2. split.
  - intros topic grade subject0 contentType language0
           topic' grade' subject' contentType' language' Heq.
    injection Heq as -> -> -> -> ->. reflexivity.
  - destruct (grade_lookup_prints g) as (gl & label & Hmember & Hlabel).
    set (lc := Rich.languageContext language "in Kiswahili" "in English").
    destruct (template_frame t lc H1) as (pre1 & post1 & F1).
    destruct (template_frame t lc H2) as (pre2 & post2 & F2).
    exists (pre1 ++ cbcContext label (subject_phrase subject)
                 ++ ". " ++ post1),
           (pre2 ++ cbcContext label (subject_phrase subject)
                 ++ ". " ++ post2).
    split; [ | split ].
    + eapply compose_frame; eassumption.
    + eapply compose_frame; eassumption.
    + intros Hne Heq.
      apply (@template_distinct
               t lc (cbcContext label (subject_phrase subject)) c1 c2
               _ _ H1 H2 Hne (F1 _) (F2 _)).
      rewrite Heq. reflexivity.
Qed.

Lemma composer_deterministic_distinct_witness :
  exists p1 p2,
    Rich.generateCBCPrompt
      (VStr "Photosynthesis") (VStr "grade6") VUndefined
      (VStr "lesson-summary") (VStr "Kiswahili") = Return (VStr p1) /\
    Rich.generateCBCPrompt
      (VStr "Photosynthesis") (VStr "grade6") VUndefined
      (VStr "assessment") (VStr "Kiswahili") = Return (VStr p2) /\
    p1 <> p2.
Proof.
  assert (Hsubject : subject_ok VUndefined).
  { left. reflexivity. }
  assert (H1 : In "lesson-summary" Rich.contentTypes).
  { simpl. tauto. }
  assert (H2 : In "assessment" Rich.contentTypes).
  { simpl. tauto. }
  destruct (@composer_deterministic_distinct
              "Photosynthesis" "grade6" VUndefined (VStr "Kiswahili")
              "lesson-summary" "assessment" Hsubject H1 H2)
    as (_ & p1 & p2 & E1 & E2 & Hne).
  exists p1, p2. split; [ exact E1 | ]. split; [ exact E2 | ].
  apply Hne. discriminate.
Defined.

(* ================================================================= *)
(** ** The simple variant: POST /api/gemini *)

Lemma gemini_string_topic (gw : gateway) (b : body) (s : string) :
  field b "topic" = VStr s -> Str.trim s <> EmptyString ->
  status (sent (Simple.post_gemini gw b)) = 200 \/
  status (sent (Simple.post_gemini gw b)) = 500.
Proof.
  intros Ht Hs.
  assert (Hne : s <> EmptyString).
  { intros ->. apply Hs. reflexivity. }
  unfold Simple.post_gemini. rewrite Ht.
  unfold Eff.try_catch, Eff.bind, Eff.lift, Eff.ret, Eff.generateContent.
  cbn [Js.truthy VStr Js.call_trim Js.to_string Js.json_to_string].
  destruct (String.eqb_spec s EmptyString) as [E | _]; [ contradiction | ].
  destruct (String.eqb_spec (Str.trim s) EmptyString) as [E | _];
    [ contradiction | ].
  cbn [negb]. destruct (gw _) as [ e | result ];
    [ right | left ]; reflexivity.
Qed.

(** C10: a topic that is truthy and not a string (a number, true, an array,
    an object) makes the trim call throw, and the endpoint answers 500 with
    the error Failed to generate content, without calling the gateway; the
    400 answer Please provide a topic. is given exactly when the topic is
    absent or falsy, or is a string that trims to the empty text. *)
Theorem gemini_topic_responses (gw : gateway) (b : body) :
  (Js.truthy (field b "topic") = true ->
   Js.is_string (field b "topic") = false ->
   Simple.post_gemini gw b = mkOutcome [] generation_failed) /\
  (sent (Simple.post_gemini gw b) = missing_topic <->
   Js.truthy (field b "topic") = false \/
   exists s, field b "topic" = VStr s /\ Str.trim s = EmptyString).
Proof.
  pose proof (gemini_string_topic gw b) as Hstring.
  unfold Simple.post_gemini, field in *.
  destruct (Js.lookup b "topic") as [ [ | v | n | s | l | props ] | ].
  - (* null *)
    split; [ discriminate | ].
    split; [ left; reflexivity | reflexivity ].
  - (* a boolean *)
    destruct v.
    + split; [ reflexivity | ].
      split; [ discriminate | ].
      intros [H | (s & H & _)]; discriminate H.
    + split; [ discriminate | ].
      split; [ left; reflexivity | reflexivity ].
  - (* a number *)
    cbn [Js.truthy]. destruct (negb (n =? "0") && negb (n =? "NaN")).
    + split; [ reflexivity | ].
      split; [ discriminate | ].
      intros [H | (s & H & _)]; discriminate H.
    + split; [ discriminate | ].
      split; [ left; reflexivity | reflexivity ].
  - (* a string *)
    split; [ discriminate | ].
    destruct (String.eqb_spec s EmptyString) as [-> | Hne].
    { split; [ left; reflexivity | reflexivity ]. }
    destruct (String.eqb_spec (Str.trim s) EmptyString) as [Ht | Ht].
    + split.
      * intros _. right. exists s. split; [ reflexivity | exact Ht ].
      * intros _.
        unfold Eff.try_catch, Eff.bind, Eff.lift, Eff.ret.
        cbn [Js.truthy Js.call_trim]. rewrite Ht.
        destruct (String.eqb_spec s EmptyString) as [ | _ ];
          [ contradiction | reflexivity ].
    + split.
      * intro H.
        destruct (Hstring s eq_refl Ht) as [S | S];
          rewrite H in S; discriminate S.
      * intros [H | (s' & H & Hs')].
        -- exfalso. cbn [Js.truthy] in H.
           destruct (String.eqb_spec s EmptyString) as [ | _ ];
             [ contradiction | discriminate H ].
        -- injection H as <-. contradiction.
  - (* an array *)
    split; [ reflexivity | ].
    split; [ discriminate | ].
    intros [H | (s & H & _)]; discriminate H.
  - (* an object *)
    split; [ reflexivity | ].
    split; [ discriminate | ].
    intros [H | (s & H & _)]; discriminate H.
  - (* absent *)
    split; [ discriminate | ].
    split; [ left; reflexivity | reflexivity ].
Qed.

Lemma gemini_topic_responses_witness :
  let gw := stubbed "SUMMARY: ..." VUndefined in
  Simple.post_gemini gw [ ("topic", JNum "42") ]
  = mkOutcome [] generation_failed /\
  sent (Simple.post_gemini gw [ ("topic", JStr "   ") ]) = missing_topic /\
  sent (Simple.post_gemini gw []) = missing_topic.
Proof.
  intro gw. split; [ | split ].
  - apply (proj1 (gemini_topic_responses gw [ ("topic", JNum "42") ]));
      reflexivity.
  - apply (proj2 (gemini_topic_responses gw [ ("topic", JStr "   ") ])).
    right. exists "   ". split; reflexivity.
  - apply (proj2 (gemini_topic_responses gw [])).
    left. reflexivity.
Defined.

(* ================================================================= *)
(** ** The endpoints that do not validate the grade *)

Lemma no_label_member (grade : value) :
  no_label grade -> Js.member Rich.grades grade = Return VUndefined.
Proof.
  intros (k & Hk & Hown & Hproto). unfold Js.member.
  rewrite Hk. cbn [bind]. rewrite Hown, Hproto. reflexivity.
Qed.

Lemma no_label_text (grade : value) :
  no_label grade -> label_text grade = Return "undefined".
Proof.
  intro H. unfold label_text. rewrite (no_label_member H). reflexivity.
Qed.

Lemma label_text_inv (grade : value) (text : string) :
  label_text grade = Return text ->
  exists gradeLabel,
    Js.member Rich.grades grade = Return gradeLabel /\
    Js.to_string gradeLabel = Return text.
Proof.
  unfold label_text. intro H.
  destruct (Js.member Rich.grades grade) as [ e | gl ];
    [ discriminate H | ].
  exists gl. split; [ reflexivity | exact H ].
Qed.

(** Values that are no grade code and find no label: a string that is
    neither a key of the table nor a member name of Object.prototype, a
    number, a boolean. *)
Lemma no_label_values :
  (forall g, Js.lookup Rich.grades g = None ->
             Js.object_prototype g = VUndefined -> no_label (VStr g)) /\
  (forall n, numeral n -> no_label (JNum n)) /\
  (forall v, no_label (JBool v)).
Proof.
  split; [ | split ].
  - intros g Hown Hproto. exists g. repeat split; assumption.
  - intros n [-> | [-> | (a & rest & -> & Ha)]].
    + eexists. split; [ reflexivity | split; reflexivity ].
    + eexists. split; [ reflexivity | split; reflexivity ].
    + exists (String a rest). split; [ reflexivity | ].
      simpl in Ha.
      repeat (destruct Ha as [<- | Ha]; [ split; reflexivity | ]).
      contradiction.
  - intros [ | ]; eexists; (split; [ reflexivity | split; reflexivity ]).
Qed.

Section Unvalidated.

Variable gw : gateway.
Variable b : body.

Lemma teacher_materials_not_400 :
  Js.truthy (field b "topic") = true ->
  Js.truthy (field b "grade") = true ->
  status (sent (Rich.post_teacher_materials gw b)) <> 400.
Proof.
  intros Ht Hg. unfold Rich.post_teacher_materials.
  rewrite Ht, Hg. cbn [negb orb]. not_400.
Qed.

Lemma teacher_materials_trace (t label : string) :
  Js.truthy (field b "topic") = true ->
  Js.truthy (field b "grade") = true ->
  Js.to_string (field b "topic") = Return t ->
  label_text (field b "grade") = Return label ->
  calls (Rich.post_teacher_materials gw b)
  = [ VStr (Rich.teacher_materials_prompt
              t label (directive b "in Kiswahili" "in English")) ].
Proof.
  intros Ht Hg Htopic Hlabel.
  apply label_text_inv in Hlabel. destruct Hlabel as (gl & Hmember & Hgl).
  unfold Rich.post_teacher_materials, directive.
  rewrite Ht, Hg. cbn [negb orb].
  unfold Eff.try_catch, Eff.bind, Eff.lift, Eff.ret, Eff.generateContent.
  rewrite Hmember, Htopic, Hgl.
  destruct (gw _); reflexivity.
Qed.

Lemma clarify_not_400 :
  Js.truthy (field b "previousContent") = true ->
  Js.truthy (field b "question") = true ->
  Js.truthy (field b "grade") = true ->
  status (sent (Rich.post_clarify gw b)) <> 400.
Proof.
  intros Hp Hq Hg. unfold Rich.post_clarify.
  rewrite Hp, Hq, Hg. cbn [negb orb]. not_400.
Qed.

Lemma clarify_trace (p q label : string) :
  Js.truthy (field b "previousContent") = true ->
  Js.truthy (field b "question") = true ->
  Js.truthy (field b "grade") = true ->
  Js.to_string (field b "previousContent") = Return p ->
  Js.to_string (field b "question") = Return q ->
  label_text (field b "grade") = Return label ->
  calls (Rich.post_clarify gw b)
  = [ VStr (Rich.clarify_prompt
              label p q (directive b "Kiswahili" "English")) ].
Proof.
  intros Hp Hq Hg Hprev Hquestion Hlabel.
  apply label_text_inv in Hlabel. destruct Hlabel as (gl & Hmember & Hgl).
  unfold Rich.post_clarify, directive.
  rewrite Hp, Hq, Hg. cbn [negb orb].
  unfold Eff.try_catch, Eff.bind, Eff.lift, Eff.ret, Eff.generateContent.
  rewrite Hmember, Hgl, Hprev, Hquestion.
  destruct (gw _); reflexivity.
Qed.

Lemma learning_path_not_400 :
  Js.truthy (field b "topic") = true ->
  Js.truthy (field b "startGrade") = true ->
  Js.truthy (field b "endGrade") = true ->
  status (sent (Rich.post_learning_path gw b)) <> 400.
Proof.
  intros Ht Hs He. unfold Rich.post_learning_path.
  rewrite Ht, Hs, He. cbn [negb orb]. not_400.
Qed.

Lemma learning_path_trace (t from to : string) :
  Js.truthy (field b "topic") = true ->
  Js.truthy (field b "startGrade") = true ->
  Js.truthy (field b "endGrade") = true ->
  Js.to_string (field b "topic") = Return t ->
  label_text (field b "startGrade") = Return from ->
  label_text (field b "endGrade") = Return to ->
  calls (Rich.post_learning_path gw b)
  = [ VStr (Rich.learning_path_prompt
              t from to (directive b "in Kiswahili" "in English")) ].
Proof.
  intros Ht Hs He Htopic Hfrom Hto.
  apply label_text_inv in Hfrom. destruct Hfrom as (gl1 & Hm1 & Hgl1).
  apply label_text_inv in Hto. destruct Hto as (gl2 & Hm2 & Hgl2).
  unfold Rich.post_learning_path, directive.
  rewrite Ht, Hs, He. cbn [negb orb].
  unfold Eff.try_catch, Eff.bind, Eff.lift, Eff.ret, Eff.generateContent.
  rewrite Hm1, Hm2, Htopic, Hgl1, Hgl2.
  destruct (gw _); reflexivity.
Qed.

End Unvalidated.

(** C9, as the code has it: when the required fields of a request to
    /api/teacher-materials, /api/clarify or /api/learning-path are truthy,
    the request is never answered 400, whatever the grade value is.  When
    the grade value finds nothing in the grade table (no entry, and no
    member inherited from Object.prototype) and the other spliced fields
    convert to text, the handler goes on to the gateway, and the one prompt
    it sends reads undefined where the label goes. *)
Theorem unknown_grade_not_rejected (gw : gateway) (b : body) :
  (Js.truthy (field b "topic") = true ->
   Js.truthy (field b "grade") = true ->
   status (sent (Rich.post_teacher_materials gw b)) <> 400 /\
   (no_label (field b "grade") ->
    Js.member Rich.grades (field b "grade") = Return VUndefined /\
    forall t,
      Js.to_string (field b "topic") = Return t ->
      calls (Rich.post_teacher_materials gw b)
      = [ VStr (Rich.teacher_materials_prompt
                  t "undefined"
                  (directive b "in Kiswahili" "in English")) ]))
  /\
  (Js.truthy (field b "previousContent") = true ->
   Js.truthy (field b "question") = true ->
   Js.truthy (field b "grade") = true ->
   status (sent (Rich.post_clarify gw b)) <> 400 /\
   (no_label (field b "grade") ->
    Js.member Rich.grades (field b "grade") = Return VUndefined /\
    forall p q,
      Js.to_string (field b "previousContent") = Return p ->
      Js.to_string (field b "question") = Return q ->
      calls (Rich.post_clarify gw b)
      = [ VStr (Rich.clarify_prompt
                  "undefined" p q (directive b "Kiswahili" "English")) ]))
  /\
  (Js.truthy (field b "topic") = true ->
   Js.truthy (field b "startGrade") = true ->
   Js.truthy (field b "endGrade") = true ->
   status (sent (Rich.post_learning_path gw b)) <> 400 /\
   forall t,
     Js.to_string (field b "topic") = Return t ->
     (no_label (field b "startGrade") ->
      forall to,
        label_text (field b "endGrade") = Return to ->
        calls (Rich.post_learning_path gw b)
        = [ VStr (Rich.learning_path_prompt
                    t "undefined" to
                    (directive b "in Kiswahili" "in English")) ]) /\
     (no_label (field b "endGrade") ->
      forall from,
        label_text (field b "startGrade") = Return from ->
        calls (Rich.post_learning_path gw b)
        = [ VStr (Rich.learning_path_prompt
                    t from "undefined"
                    (directive b "in Kiswahili" "in English")) ])).
Proof.
  split; [ | split ].
  - intros Ht Hg. split; [ apply teacher_materials_not_400; assumption | ].
    intro Hnone. split; [ apply no_label_member; exact Hnone | ].
    intros t Htopic.
    apply teacher_materials_trace; try assumption.
    apply no_label_text; exact Hnone.
  - intros Hp Hq Hg. split; [ apply clarify_not_400; assumption | ].
    intro Hnone. split; [ apply no_label_member; exact Hnone | ].
    intros p q Hprev Hquestion.
    apply clarify_trace; try assumption.
    apply no_label_text; exact Hnone.
  - intros Ht Hs He. split; [ apply learning_path_not_400; assumption | ].
    intros t Htopic. split.
    + intros Hnone to Hto.
      apply learning_path_trace; try assumption.
      apply no_label_text; exact Hnone.
    + intros Hnone from Hfrom.
      apply learning_path_trace; try assumption.
      apply no_label_text; exact Hnone.
Qed.

Lemma unknown_grade_not_rejected_witness :
  let b := [ ("topic", JStr "Fractions"); ("grade", JStr "grade13") ] in
  let gw := stubbed "Objectives" VUndefined in
  status (sent (Rich.post_teacher_materials gw b)) <> 400 /\
  calls (Rich.post_teacher_materials gw b)
  = [ VStr (Rich.teacher_materials_prompt
              "Fractions" "undefined" "in English") ].
Proof.
  intros b gw.
  destruct (unknown_grade_not_rejected gw b) as (H & _ & _).
  destruct (H eq_refl eq_refl) as (Hstatus & Hcalls).
  split; [ exact Hstatus | ].
  assert (Hnone : no_label (field b "grade")).
  { exists "grade13". repeat split; reflexivity. }
  destruct (Hcalls Hnone) as (_ & Hprompt).
  exact (Hprompt "Fractions" eq_refl).
Defined.

(** Two grade values that are no grade code and for which the lookup does
    yield something.  The text toString names a member that the grade table
    inherits from Object.prototype: the label is that function, and the
    prompt carries its source text.  The array holding grade6 is converted
    to the key grade6: the label is Grade 6.  The validator of
    /api/generate turns both values away. *)
Lemma grade_lookup_finds_a_label :
  let gw := stubbed "Objectives" VUndefined in
  let b1 := [ ("topic", JStr "Fractions"); ("grade", JStr "toString") ] in
  let b2 := [ ("topic", JStr "Fractions");
              ("grade", JArr [ JStr "grade6" ]) ] in
  (Js.truthy (field b1 "topic") = true /\
   Js.truthy (field b1 "grade") = true /\
   Js.includes (Js.keys Rich.grades) (field b1 "grade") = false /\
   Js.member Rich.grades (field b1 "grade") = Return (VNative "toString") /\
   calls (Rich.post_teacher_materials gw b1)
   = [ VStr (Rich.teacher_materials_prompt
               "Fractions" "function toString() { [native code] }"
               "in English") ] /\
   calls (Rich.post_teacher_materials gw b1)
   <> [ VStr (Rich.teacher_materials_prompt
                "Fractions" "undefined" "in English") ]) /\
  (Js.truthy (field b2 "topic") = true /\
   Js.truthy (field b2 "grade") = true /\
   Js.includes (Js.keys Rich.grades) (field b2 "grade") = false /\
   Js.member Rich.grades (field b2 "grade") = Return (VStr "Grade 6") /\
   calls (Rich.post_teacher_materials gw b2)
   = [ VStr (Rich.teacher_materials_prompt
               "Fractions" "Grade 6" "in English") ] /\
   calls (Rich.post_teacher_materials gw b2)
   <> [ VStr (Rich.teacher_materials_prompt
                "Fractions" "undefined" "in English") ]).
Proof.
  intros gw b1 b2.
  split; repeat split; try (vm_compute; reflexivity);
    vm_compute; discriminate.
Qed.

(* ================================================================= *)
(** ** Further properties of the validator *)

(** X1: with a valid topic and a valid grade, a subject that is truthy and
    not a string (a non-zero number, true, an array, an object) is answered
    with the InvalidSubject failure, status 400, and the gateway is not
    called. *)
Theorem invalid_subject_rejected (gw : gateway) (now : string) (b : body) :
  topic_ok (field b "topic") ->
  (exists g, field b "grade" = VStr g /\ In g (Js.keys Rich.grades)) ->
  Js.truthy (field b "subject") = true ->
  Js.is_string (field b "subject") = false ->
  Rich.post_generate gw now b = mkOutcome [] Rich.InvalidSubject /\
  status Rich.InvalidSubject = 400 /\
  Client.error Rich.InvalidSubject = Some (JStr "Subject must be a string").
Proof.
  intros Htopic (g & Hg & Hgin) Htruthy Hstring.
  split; [ | split; reflexivity ].
  unfold Rich.post_generate, Rich.validateGenerateRequest.
  rewrite (topic_check_passes Htopic), (grade_check_passes Hg Hgin).
  rewrite Htruthy, Hstring. reflexivity.
Qed.

Lemma invalid_subject_rejected_witness :
  let b := [ ("topic", JStr "Fractions"); ("grade", JStr "grade4");
             ("subject", JNum "7");
             ("contentType", JStr "quiz"); ("language", JStr "English") ] in
  Rich.post_generate (stubbed "Q1) ..." VUndefined)
                     "2025-01-01T00:00:00.000Z" b
  = mkOutcome [] Rich.InvalidSubject.
Proof.
  intro b.
  refine (proj1 (@invalid_subject_rejected
                   (stubbed "Q1) ..." VUndefined)
                   "2025-01-01T00:00:00.000Z" b _ _ _ _)).
  - exists "Fractions". split; [ reflexivity | vm_compute; discriminate ].
  - exists "grade4". split; [ reflexivity | simpl; tauto ].
  - reflexivity.
  - reflexivity.
Defined.

(** X2: whenever the validator answers a request itself, the answer is one
    of its five failures, its status is 400, it carries success: false and
    an error text, and the endpoint sends it without calling the gateway.
    The five failures carry five different texts. *)
Theorem validator_rejections (b : body) (r : response) :
  Rich.validateGenerateRequest b = Respond r ->
  In r [ Rich.InvalidTopic; Rich.InvalidGrade; Rich.InvalidSubject;
         Rich.InvalidContentType; Rich.InvalidLanguage ] /\
  status r = 400 /\
  Client.at_key (payload r) "success" = Some (JBool false) /\
  (exists text, Client.error r = Some (JStr text)) /\
  (forall gw now, Rich.post_generate gw now b = mkOutcome [] r) /\
  NoDup (map Client.error
             [ Rich.InvalidTopic; Rich.InvalidGrade; Rich.InvalidSubject;
               Rich.InvalidContentType; Rich.InvalidLanguage ]).
Proof.
  intro H.
  assert (Hin : In r [ Rich.InvalidTopic; Rich.InvalidGrade;
                       Rich.InvalidSubject; Rich.InvalidContentType;
                       Rich.InvalidLanguage ]).
  { unfold Rich.validateGenerateRequest in H.
    repeat match type of H with
           | (if ?c then _ else _) = _ => destruct c
           end;
      try discriminate H; injection H as <-; simpl; tauto. }
  split; [ exact Hin | ].
  assert (Hshape : status r = 400 /\
                   Client.at_key (payload r) "success" = Some (JBool false) /\
                   exists text, Client.error r = Some (JStr text)).
  { simpl in Hin.
    repeat (destruct Hin as [<- | Hin];
            [ split; [ reflexivity | split; [ reflexivity | ] ];
              eexists; reflexivity | ]).
    contradiction. }
  destruct Hshape as (Hstatus & Hsuccess & Htext).
  repeat (split; [ assumption | ]). split.
  - intros gw now. unfold Rich.post_generate. rewrite H. reflexivity.
  - vm_compute.
    repeat (constructor; [ simpl; intuition discriminate | ]).
    constructor.
Qed.

Lemma validator_rejections_witness :
  Rich.post_generate (stubbed "Q1) ..." VUndefined)
                     "2025-01-01T00:00:00.000Z" [ ("grade", JStr "grade4") ]
  = mkOutcome [] Rich.InvalidTopic.
Proof.
  exact (proj1 (proj2 (proj2 (proj2 (proj2
    (@validator_rejections [ ("grade", JStr "grade4") ] Rich.InvalidTopic
                           eq_refl)))))
    (stubbed "Q1) ..." VUndefined) "2025-01-01T00:00:00.000Z").
Defined.

(** X3: the validator passes a request on exactly when the topic is a
    string that is not empty once trimmed, the grade is one of the codes of
    the grade table, the subject is falsy or a non-empty string, the
    content type is one of the five known values and the language is
    English or Kiswahili. *)
Theorem validator_accepts_exactly (b : body) :
  Rich.validateGenerateRequest b = Next <->
  (exists t, field b "topic" = VStr t /\ Str.trim t <> EmptyString) /\
  (exists g, field b "grade" = VStr g /\ In g (Js.keys Rich.grades)) /\
  (Js.truthy (field b "subject") = false \/
   exists s, field b "subject" = VStr s /\ s <> EmptyString) /\
  (exists c, field b "contentType" = VStr c /\
             In c [ "lesson-summary"; "quiz"; "activity"; "assessment";
                    "explanation" ]) /\
  (exists l, field b "language" = VStr l /\ In l [ "English"; "Kiswahili" ]).
Proof.
  split.
  - intro H. apply validated_iff in H.
    destruct H as [Ht Hg Hs Hc Hl].
    repeat split; assumption.
  - intros (Ht & Hg & Hs & Hc & Hl). apply validated_iff.
    constructor; assumption.
Qed.

(* ================================================================= *)
(** ** Further properties of POST /api/generate *)

Lemma subject_echo_prop (subject : value) (d : string) :
  subject_ok subject ->
  prop "subject" (Js.or_else subject (VStr d))
  = [ ("subject", JStr (subject_echo subject d)) ].
Proof.
  intros [E | (s & -> & Hs)].
  - unfold Js.or_else. rewrite E.
    destruct subject as [ | [ | v | n | s | l | props ] | name | ];
      try reflexivity; try discriminate E.
    simpl in E. apply negb_false_iff, String.eqb_eq in E. subst s.
    reflexivity.
  - unfold Js.or_else, subject_echo. cbn [Js.truthy VStr].
    destruct (String.eqb_spec s EmptyString) as [ | _ ];
      [ contradiction | reflexivity ].
Qed.

(** The handler on a request the validator let through: one call, with the
    prompt of the composer; then the gateway decides. *)
Lemma generate_validated
      (gw : gateway) (now : string) (b : body)
      (t g label c l p : string) :
  field b "topic" = VStr t ->
  field b "grade" = VStr g ->
  Js.lookup Rich.grades g = Some (VStr label) ->
  field b "contentType" = VStr c ->
  field b "language" = VStr l ->
  subject_ok (field b "subject") ->
  prompt_of b = Return (VStr p) ->
  calls (Rich.generate gw now b) = [ VStr p ] /\
  (forall e, gw (VStr p) = Throw e ->
             sent (Rich.generate gw now b)
             = Rich.failed "Failed to generate content" e) /\
  (forall r, gw (VStr p) = Return r ->
             sent (Rich.generate gw now b)
             = json_ok
                 (JObj [ ("success", JBool true);
                         ("data",
                          JObj [ ("topic", JStr t);
                                 ("grade", JStr g);
                                 ("gradeLabel", JStr label);
                                 ("subject",
                                  JStr (subject_echo (field b "subject")
                                                     "General"));
                                 ("contentType", JStr c);
                                 ("language", JStr l);
                                 ("content", JStr (text r));
                                 ("generatedAt", JStr now);
                                 ("cbcAligned", JBool true) ]);
                         ("metadata",
                          JObj ([ ("model", JStr "gemini-pro");
                                  ("curriculum", JStr "Kenyan CBC") ]
                                ++ prop "inputTokens"
                                     (Js.or_else (inputTokenCount r)
                                                 (JNum "0")))%list) ])).
Proof.
  intros Ht Hg Hlabel Hc Hl Hs Hp.
  unfold prompt_of in Hp. unfold Rich.generate.
  rewrite Ht, Hg, Hc, Hl in *. cbn [Js.default VStr] in *.
  unfold Eff.try_catch, Eff.bind, Eff.lift, Eff.ret, Eff.generateContent.
  fold (VStr t) (VStr g) (VStr c) (VStr l).
  rewrite Hp. fold (VStr p).
  rewrite (member_own _ _ Hlabel).
  destruct (gw (VStr p)) as [ e | r ].
  - split; [ reflexivity | ]. split.
    + intros e' [= <-]. reflexivity.
    + intros r [=].
  - split; [ reflexivity | ]. split.
    + intros e [=].
    + intros r' [= <-].
      unfold obj. cbn [sent List.concat app].
      rewrite (subject_echo_prop "General" Hs).
      rewrite (app_nil_r (prop "inputTokens" _)). reflexivity.
Qed.

Lemma validated_fields (b : body) :
  Rich.validateGenerateRequest b = Next ->
  exists t g label c l p,
    field b "topic" = VStr t /\
    field b "grade" = VStr g /\
    Js.lookup Rich.grades g = Some (VStr label) /\
    field b "contentType" = VStr c /\
    field b "language" = VStr l /\
    subject_ok (field b "subject") /\
    prompt_of b = Return (VStr p).
Proof.
  intro Hv. apply validated_iff in Hv.
  destruct Hv as [(t & Ht & _) (g & Hg & Hgin) Hs (c & Hc & Hcin)
                  (l & Hl & _)].
  pose proof Hgin as Hlabel. apply known_grade_label in Hlabel.
  destruct Hlabel as (label & Hlabel).
  destruct (template_frame
              t (Rich.languageContext (VStr l) "in Kiswahili" "in English")
              Hcin) as (pre & post & Hframe).
  exists t, g, label, c, l. eexists.
  repeat (split; [ eassumption | ]).
  unfold prompt_of. rewrite Ht, Hg, Hc, Hl. cbn [Js.default VStr].
  eapply compose_frame;
    [ exact Hframe | exact Hs | apply member_own; exact Hlabel
    | reflexivity ].
Qed.

(** C1, as the code has it: on a request with a valid topic, a valid grade
    and a subject that is absent, falsy or a string, the validator requires
    contentType to be one of the five known values and answers
    InvalidContentType otherwise, an absent contentType included; it then
    requires language to be English or Kiswahili and answers
    InvalidLanguage otherwise, an absent language included.  A request that
    passes names both fields, and the pipeline uses them as given: the one
    prompt sent to the gateway is the one the composer builds for that
    content type and that language, and the answer reports both. *)
Theorem contentType_language_required
        (gw : gateway) (now : string) (b : body) :
  topic_ok (field b "topic") ->
  (exists g, field b "grade" = VStr g /\ In g (Js.keys Rich.grades)) ->
  subject_ok (field b "subject") ->
  ((~ exists c, field b "contentType" = VStr c /\ In c Rich.contentTypes) ->
   Rich.post_generate gw now b = mkOutcome [] Rich.InvalidContentType) /\
  ((exists c, field b "contentType" = VStr c /\ In c Rich.contentTypes) ->
   (~ exists l, field b "language" = VStr l /\ In l Rich.languages) ->
   Rich.post_generate gw now b = mkOutcome [] Rich.InvalidLanguage) /\
  ((exists c, field b "contentType" = VStr c /\ In c Rich.contentTypes) ->
   (exists l, field b "language" = VStr l /\ In l Rich.languages) ->
   Rich.validateGenerateRequest b = Next /\
   Js.default (field b "contentType") (VStr "lesson-summary")
   = field b "contentType" /\
   Js.default (field b "language") (VStr "English") = field b "language" /\
   exists c l p,
     field b "contentType" = VStr c /\
     field b "language" = VStr l /\
     Rich.generateCBCPrompt
       (field b "topic") (field b "grade") (field b "subject")
       (VStr c) (VStr l)
     = Return (VStr p) /\
     calls (Rich.post_generate gw now b) = [ VStr p ] /\
     forall r,
       gw (VStr p) = Return r ->
       Client.data (sent (Rich.post_generate gw now b)) "contentType"
       = Some (JStr c) /\
       Client.data (sent (Rich.post_generate gw now b)) "language"
       = Some (JStr l)).
Proof.
  intros Htopic (g & Hg & Hgin) Hsubject.
  assert (Hs : Js.truthy (field b "subject") &&
               negb (Js.is_string (field b "subject")) = false).
  { destruct Hsubject as [E | (s & -> & _)].
    - rewrite E. reflexivity.
    - apply andb_false_r. }
  assert (Hcts : ~ In EmptyString Rich.contentTypes).
  { simpl. intuition discriminate. }
  assert (Hls : ~ In EmptyString Rich.languages).
  { simpl. intuition discriminate. }
  pose proof (@enum_check _ (field b "contentType") Hcts) as Hct.
  pose proof (@enum_check _ (field b "language") Hls) as Hl.
  split; [ | split ].
  - intro Hno. unfold Rich.post_generate, Rich.validateGenerateRequest.
    rewrite (topic_check_passes Htopic), (grade_check_passes Hg Hgin), Hs.
    destruct (negb (Js.truthy (field b "contentType")) ||
              negb (Js.includes Rich.contentTypes (field b "contentType")))
      eqn:E; [ reflexivity | ].
    exfalso. apply Hno, Hct. reflexivity.
  - intros Hyes Hno. unfold Rich.post_generate, Rich.validateGenerateRequest.
    rewrite (topic_check_passes Htopic), (grade_check_passes Hg Hgin), Hs.
    apply Hct in Hyes. rewrite Hyes.
    destruct (negb (Js.truthy (field b "language")) ||
              negb (Js.includes Rich.languages (field b "language")))
      eqn:E; [ reflexivity | ].
    exfalso. apply Hno, Hl. reflexivity.
  - intros Hc Hlang.
    assert (Hv : Rich.validateGenerateRequest b = Next).
    { unfold Rich.validateGenerateRequest.
      rewrite (topic_check_passes Htopic), (grade_check_passes Hg Hgin), Hs.
      apply Hct in Hc. apply Hl in Hlang. rewrite Hc, Hlang. reflexivity. }
    split; [ exact Hv | ].
    destruct (@validated_fields b Hv)
      as (t & g' & label & c & l & p
          & Ht & Hg' & Hlabel & Hc' & Hl' & Hs' & Hp).
    split; [ rewrite Hc'; reflexivity | ].
    split; [ rewrite Hl'; reflexivity | ].
    destruct (@generate_validated gw now b t g' label c l p
                                  Ht Hg' Hlabel Hc' Hl' Hs' Hp)
      as (Hcalls & _ & Hreturn).
    exists c, l, p.
    split; [ exact Hc' | ]. split; [ exact Hl' | ].
    split.
    { unfold prompt_of in Hp. rewrite Hc', Hl' in Hp. exact Hp. }
    unfold Rich.post_generate. rewrite Hv.
    split; [ exact Hcalls | ].
    intros r Hr. rewrite (Hreturn r Hr). split; reflexivity.
Qed.

Lemma contentType_language_required_witness :
  let gw := stubbed "Summary" VUndefined in
  let now := "2025-01-01T00:00:00.000Z" in
  let b := [ ("topic", JStr "Photosynthesis"); ("grade", JStr "grade6");
             ("language", JStr "English") ] in
  Rich.post_generate gw now b = mkOutcome [] Rich.InvalidContentType.
Proof.
  intros gw now b.
  assert (Htopic : topic_ok (field b "topic")).
  { exists "Photosynthesis". split; [ reflexivity | ].
    vm_compute. discriminate. }
  assert (Hgrade : exists g, field b "grade" = VStr g /\
                             In g (Js.keys Rich.grades)).
  { exists "grade6". split; [ reflexivity | simpl; tauto ]. }
  assert (Hsubject : subject_ok (field b "subject")).
  { left. reflexivity. }
  apply (proj1 (@contentType_language_required
                  gw now b Htopic Hgrade Hsubject)).
  intros (c & Hc & _). discriminate Hc.
Defined.

(** X4: on every request the validator lets through, the endpoint calls the
    gateway exactly once, with the prompt of the composer, which is a
    string; when that call throws, the answer is 500 with success: false,
    the error Failed to generate content and the message of the exception
    as details. *)
Theorem generate_failure_envelope (gw : gateway) (now : string) (b : body) :
  Rich.validateGenerateRequest b = Next ->
  exists p,
    prompt_of b = Return (VStr p) /\
    calls (Rich.post_generate gw now b) = [ VStr p ] /\
    forall e,
      gw (VStr p) = Throw e ->
      sent (Rich.post_generate gw now b)
      = mkResponse 500
          (JObj [ ("success", JBool false);
                  ("error", JStr "Failed to generate content");
                  ("details", JStr (message e)) ]).
Proof.
  intro Hv. unfold Rich.post_generate. rewrite Hv.
  destruct (@validated_fields b Hv)
    as (t & g & label & c & l & p & Ht & Hg & Hlabel & Hc & Hl & Hs & Hp).
  destruct (@generate_validated gw now b t g label c l p
                                Ht Hg Hlabel Hc Hl Hs Hp)
    as (Hcalls & Hthrow & _).
  exists p. split; [ exact Hp | ]. split; [ exact Hcalls | ].
  intros e He. rewrite (Hthrow e He). reflexivity.
Qed.

Lemma generate_failure_envelope_witness :
  let gw : gateway := fun _ => Throw (Error "fetch failed") in
  let b := [ ("topic", JStr "Fractions"); ("grade", JStr "grade4");
             ("contentType", JStr "activity");
             ("language", JStr "Kiswahili") ] in
  sent (Rich.post_generate gw "2025-01-01T00:00:00.000Z" b)
  = mkResponse 500
      (JObj [ ("success", JBool false);
              ("error", JStr "Failed to generate content");
              ("details", JStr "fetch failed") ]).
Proof.
  intros gw b.
  assert (Hv : Rich.validateGenerateRequest b = Next).
  { vm_compute. reflexivity. }
  destruct (@generate_failure_envelope gw "2025-01-01T00:00:00.000Z" b Hv)
    as (p & _ & _ & H).
  exact (H (Error "fetch failed") eq_refl).
Defined.

(** X5: on every request the validator lets through, when the gateway
    returns, the answer is 200 with success: true and a data object that
    gives back the topic, the grade, the content type and the language as
    they were sent (the topic is not trimmed), the label of the grade from
    the grade table, the subject or General when the subject is missing or
    empty, the generated text, the time stamp and cbcAligned: true, in this
    order; inputTokens is 0 when the provider reports no usage. *)
Theorem generate_success_envelope
        (gw : gateway) (now : string) (b : body) :
  Rich.validateGenerateRequest b = Next ->
  exists t g label c l p,
    field b "topic" = VStr t /\
    field b "grade" = VStr g /\
    Js.lookup Rich.grades g = Some (VStr label) /\
    field b "contentType" = VStr c /\
    field b "language" = VStr l /\
    prompt_of b = Return (VStr p) /\
    forall r,
      gw (VStr p) = Return r ->
      status (sent (Rich.post_generate gw now b)) = 200 /\
      Client.at_key (payload (sent (Rich.post_generate gw now b))) "success"
      = Some (JBool true) /\
      Client.at_key (payload (sent (Rich.post_generate gw now b))) "data"
      = Some (JObj [ ("topic", JStr t);
                     ("grade", JStr g);
                     ("gradeLabel", JStr label);
                     ("subject",
                      JStr (subject_echo (field b "subject") "General"));
                     ("contentType", JStr c);
                     ("language", JStr l);
                     ("content", JStr (text r));
                     ("generatedAt", JStr now);
                     ("cbcAligned", JBool true) ]) /\
      (inputTokenCount r = VUndefined ->
       Client.at_key (payload (sent (Rich.post_generate gw now b)))
                     "metadata"
       = Some (JObj [ ("model", JStr "gemini-pro");
                      ("curriculum", JStr "Kenyan CBC");
                      ("inputTokens", JNum "0") ])).
Proof.
  intro Hv. unfold Rich.post_generate. rewrite Hv.
  destruct (@validated_fields b Hv)
    as (t & g & label & c & l & p & Ht & Hg & Hlabel & Hc & Hl & Hs & Hp).
  destruct (@generate_validated gw now b t g label c l p
                                Ht Hg Hlabel Hc Hl Hs Hp)
    as (_ & _ & Hreturn).
  exists t, g, label, c, l, p.
  repeat (split; [ assumption | ]).
  intros r Hr. rewrite (Hreturn r Hr).
  repeat split. intro Husage. rewrite Husage. reflexivity.
Qed.

Lemma generate_success_envelope_witness :
  let gw := stubbed "Shughuli: ..." VUndefined in
  let b := [ ("topic", JStr " Fractions "); ("grade", JStr "grade4");
             ("subject", JStr "Mathematics");
             ("contentType", JStr "activity");
             ("language", JStr "Kiswahili") ] in
  Client.at_key
    (payload (sent (Rich.post_generate gw "2025-01-01T00:00:00.000Z" b)))
    "data"
  = Some (JObj [ ("topic", JStr " Fractions ");
                 ("grade", JStr "grade4");
                 ("gradeLabel", JStr "Grade 4");
                 ("subject", JStr "Mathematics");
                 ("contentType", JStr "activity");
                 ("language", JStr "Kiswahili");
                 ("content", JStr "Shughuli: ...");
                 ("generatedAt", JStr "2025-01-01T00:00:00.000Z");
                 ("cbcAligned", JBool true) ]).
Proof.
  intros gw b.
  assert (Hv : Rich.validateGenerateRequest b = Next).
  { vm_compute. reflexivity. }
  destruct (@generate_success_envelope gw "2025-01-01T00:00:00.000Z" b Hv)
    as (t & g & label & c & l & p & Ht & Hg & Hlabel & Hc & Hl & _ & H).
  injection Ht as <-. injection Hg as <-. injection Hlabel as <-.
  injection Hc as <-. injection Hl as <-.
  destruct (H (mkReply "Shughuli: ..." VUndefined) eq_refl)
    as (_ & _ & Hdata & _).
  exact Hdata.
Defined.

(* ================================================================= *)
(** ** Further properties of the endpoints without a validator *)

(** A handler that opens with a check of its required fields. *)
Lemma required_check (out : outcome) (missing : bool) (r : response) :
  status r = 400 ->
  (missing = true -> out = mkOutcome [] r) ->
  (missing = false -> status (sent out) <> 400) ->
  (status (sent out) = 400 <-> missing = true) /\
  (status (sent out) = 400 -> out = mkOutcome [] r).
Proof.
  intros Hr Hyes Hno. destruct missing.
  - rewrite (Hyes eq_refl). cbn [sent]. rewrite Hr.
    split; [ split | ]; reflexivity.
  - specialize (Hno eq_refl).
    split; [ split | ]; intro H; [ contradiction | discriminate | contradiction ].
Qed.

Lemma some_falsy2 (x y : bool) :
  negb x || negb y = true <-> x = false \/ y = false.
Proof. destruct x, y; simpl; intuition discriminate. Qed.

Lemma some_falsy3 (x y z : bool) :
  negb x || negb y || negb z = true <-> x = false \/ y = false \/ z = false.
Proof. destruct x, y, z; simpl; intuition discriminate. Qed.

Lemma all_truthy2 (x y : bool) :
  negb x || negb y = false -> x = true /\ y = true.
Proof. destruct x, y; simpl; intuition discriminate. Qed.

Lemma all_truthy3 (x y z : bool) :
  negb x || negb y || negb z = false -> x = true /\ y = true /\ z = true.
Proof. destruct x, y, z; simpl; intuition discriminate. Qed.

(** X6: POST /api/teacher-materials answers 400 exactly when the topic or
    the grade is missing or falsy (null, false, 0, the empty string); the
    answer is then success: false with the error Topic and grade are
    required, and the gateway is not called. *)
Theorem teacher_materials_required (gw : gateway) (b : body) :
  (status (sent (Rich.post_teacher_materials gw b)) = 400 <->
   Js.truthy (field b "topic") = false \/
   Js.truthy (field b "grade") = false) /\
  (status (sent (Rich.post_teacher_materials gw b)) = 400 ->
   Rich.post_teacher_materials gw b
   = mkOutcome []
       (mkResponse 400
          (JObj [ ("success", JBool false);
                  ("error", JStr "Topic and grade are required") ]))).
Proof.
  rewrite <- some_falsy2. apply required_check.
  - reflexivity.
  - intro H. unfold Rich.post_teacher_materials. rewrite H. reflexivity.
  - intro H. apply all_truthy2 in H. destruct H as [Ht Hg].
    apply teacher_materials_not_400; assumption.
Qed.

(** X7: POST /api/clarify answers 400 exactly when previousContent, the
    question or the grade is missing or falsy; the answer is then
    success: false with the error naming the three fields, and the gateway
    is not called. *)
Theorem clarify_required (gw : gateway) (b : body) :
  (status (sent (Rich.post_clarify gw b)) = 400 <->
   Js.truthy (field b "previousContent") = false \/
   Js.truthy (field b "question") = false \/
   Js.truthy (field b "grade") = false) /\
  (status (sent (Rich.post_clarify gw b)) = 400 ->
   Rich.post_clarify gw b
   = mkOutcome []
       (mkResponse 400
          (JObj [ ("success", JBool false);
                  ("error",
                   JStr "previousContent, question, and grade are required")
                ]))).
Proof.
  rewrite <- some_falsy3. apply required_check.
  - reflexivity.
  - intro H. unfold Rich.post_clarify. rewrite H. reflexivity.
  - intro H. apply all_truthy3 in H. destruct H as (Hp & Hq & Hg).
    apply clarify_not_400; assumption.
Qed.

(** X8: POST /api/learning-path answers 400 exactly when the topic, the
    start grade or the end grade is missing or falsy; the answer is then
    success: false with the error naming the three fields, and the gateway
    is not called. *)
Theorem learning_path_required (gw : gateway) (b : body) :
  (status (sent (Rich.post_learning_path gw b)) = 400 <->
   Js.truthy (field b "topic") = false \/
   Js.truthy (field b "startGrade") = false \/
   Js.truthy (field b "endGrade") = false) /\
  (status (sent (Rich.post_learning_path gw b)) = 400 ->
   Rich.post_learning_path gw b
   = mkOutcome []
       (mkResponse 400
          (JObj [ ("success", JBool false);
                  ("error",
                   JStr "Topic, startGrade, and endGrade are required") ]))).
Proof.
  rewrite <- some_falsy3. apply required_check.
  - reflexivity.
  - intro H. unfold Rich.post_learning_path. rewrite H. reflexivity.
  - intro H. apply all_truthy3 in H. destruct H as (Ht & Hs & He).
    apply learning_path_not_400; assumption.
Qed.

(* ================================================================= *)
(** ** What no endpoint does *)

Lemma rejection_status (b : body) (r : response) :
  Rich.validateGenerateRequest b = Respond r -> status r = 400.
Proof.
  unfold Rich.validateGenerateRequest. intro H.
  repeat match type of H with
         | (if ?c then _ else _) = _ => destruct c
         end;
    try discriminate H; injection H as <-; reflexivity.
Qed.

(** X9: each of the five POST endpoints calls the gateway at most once per
    request (there is no retry), answers with status 200, 400 or 500 and
    nothing else, answers 200 only after its one call has returned, and
    has made no call when it answers 400. *)
Theorem gateway_called_at_most_once
        (gw : gateway) (now : string) (b : body) :
  well_behaved gw (Rich.post_generate gw now b) /\
  well_behaved gw (Rich.post_teacher_materials gw b) /\
  well_behaved gw (Rich.post_clarify gw b) /\
  well_behaved gw (Rich.post_learning_path gw b) /\
  well_behaved gw (Simple.post_gemini gw b).
Proof.
  split; [ | split; [ | split; [ | split ] ] ].
  - unfold Rich.post_generate.
    destruct (Rich.validateGenerateRequest b) as [ r | ] eqn:Ev.
    + apply rejection_status in Ev.
      unfold well_behaved. cbn [calls sent List.length]. rewrite Ev.
      repeat split; [ lia | simpl; tauto | discriminate ].
    + unfold Rich.generate. paths.
  - unfold Rich.post_teacher_materials.
    destruct (negb _ || negb _); paths.
  - unfold Rich.post_clarify.
    destruct (negb _ || negb _ || negb _); paths.
  - unfold Rich.post_learning_path.
    destruct (negb _ || negb _ || negb _); paths.
  - unfold Simple.post_gemini.
    destruct (negb (Js.truthy (field b "topic"))).
    + paths.
    + unfold Eff.bind at 1. unfold Eff.bind at 1. unfold Eff.lift at 1.
      destruct (Js.call_trim (field b "topic")) as [ e | trimmed ].
      * paths.
      * unfold Eff.ret at 1. destruct (trimmed =? EmptyString); paths.
Qed.

(* ================================================================= *)
(** ** Answers of the endpoints without a validator *)

Lemma truthy_field (b : body) (name : string) :
  Js.truthy (field b name) = true -> exists j, field b name = VJson j.
Proof.
  unfold field. destruct (Js.lookup b name) as [ j | ].
  - intros _. exists j. reflexivity.
  - discriminate.
Qed.

(** A property given by [a || d] or by a default is always written out. *)
Lemma prop_or_else (b : body) (name key d : string) :
  exists j, prop key (Js.or_else (field b name) (VStr d)) = [ (key, j) ].
Proof.
  unfold Js.or_else, field. destruct (Js.lookup b name) as [ j | ].
  - destruct (Js.truthy j); eexists; reflexivity.
  - eexists. reflexivity.
Qed.

Lemma prop_default (b : body) (name key d : string) :
  exists j, prop key (Js.default (field b name) (VStr d)) = [ (key, j) ].
Proof.
  unfold field. destruct (Js.lookup b name) as [ j | ];
    eexists; reflexivity.
Qed.

(** X10: in POST /api/teacher-materials, a grade or a topic that cannot be
    converted to text (an object with an own property named toString) makes
    the handler throw before the gateway is reached; the exception is
    caught and answered 500 with success: false, the error Failed to
    generate teacher materials and the message of the exception. *)
Theorem teacher_materials_conversion_failure
        (gw : gateway) (b : body) (e : exn) :
  Js.truthy (field b "topic") = true ->
  Js.truthy (field b "grade") = true ->
  Js.member Rich.grades (field b "grade") = Throw e \/
  (exists gradeLabel,
      Js.member Rich.grades (field b "grade") = Return gradeLabel /\
      Js.to_string (field b "topic") = Throw e) ->
  Rich.post_teacher_materials gw b
  = mkOutcome []
      (mkResponse 500
         (JObj [ ("success", JBool false);
                 ("error", JStr "Failed to generate teacher materials");
                 ("details", JStr (message e)) ])).
Proof.
  intros Ht Hg H. unfold Rich.post_teacher_materials.
  rewrite Ht, Hg. cbn [negb orb].
  unfold Eff.try_catch, Eff.bind, Eff.lift, Eff.ret, Eff.generateContent.
  destruct H as [Hm | (gl & Hm & Htopic)].
  - rewrite Hm. reflexivity.
  - rewrite Hm, Htopic. reflexivity.
Qed.

Lemma teacher_materials_conversion_failure_witness :
  let b := [ ("topic", JObj [ ("toString", JNum "1") ]);
             ("grade", JStr "grade4") ] in
  Rich.post_teacher_materials (stubbed "Objectives" VUndefined) b
  = mkOutcome []
      (mkResponse 500
         (JObj [ ("success", JBool false);
                 ("error", JStr "Failed to generate teacher materials");
                 ("details",
                  JStr "Cannot convert object to primitive value") ])).
Proof.
  intro b.
  apply (@teacher_materials_conversion_failure
           (stubbed "Objectives" VUndefined) b Js.cannot_convert).
  - reflexivity.
  - reflexivity.
  - right. exists (VStr "Grade 4"). split; reflexivity.
Defined.

(** X11: when POST /api/teacher-materials succeeds, the data of the answer
    give back the grade as JSON.stringify writes it (as it was sent, a
    number that is not finite becoming null) and the generated text;
    gradeLabel is the label of the grade table when the lookup finds one,
    and is left out of the answer altogether when the lookup finds
    nothing. *)
Theorem teacher_materials_success
        (gw : gateway) (b : body) (t label : string)
        (gradeLabel : value) (grade : json) (r : reply) :
  Js.truthy (field b "topic") = true ->
  field b "grade" = VJson grade ->
  Js.truthy (VJson grade) = true ->
  Js.to_string (field b "topic") = Return t ->
  Js.member Rich.grades (VJson grade) = Return gradeLabel ->
  Js.to_string gradeLabel = Return label ->
  gw (VStr (Rich.teacher_materials_prompt
              t label (directive b "in Kiswahili" "in English")))
  = Return r ->
  let out := Rich.post_teacher_materials gw b in
  status (sent out) = 200 /\
  Client.at_key (payload (sent out)) "success" = Some (JBool true) /\
  Client.data (sent out) "grade" = Some (serialize grade) /\
  Client.data (sent out) "teacherMaterials" = Some (JStr (text r)) /\
  (forall l, gradeLabel = VStr l ->
             Client.data (sent out) "gradeLabel" = Some (JStr l)) /\
  (gradeLabel = VUndefined -> Client.data (sent out) "gradeLabel" = None).
Proof.
  intros Ht Hg Hgt Htopic Hm Hlabel Hgw out. subst out.
  destruct (truthy_field b "topic" Ht) as (jt & Hjt).
  destruct (prop_or_else b "subject" "subject" "General") as (js & Hjs).
  destruct (prop_default b "language" "language" "English") as (jl & Hjl).
  unfold Rich.post_teacher_materials. unfold directive in Hgw.
  rewrite Hg in *. rewrite Ht, Hgt. cbn [negb orb].
  unfold Eff.try_catch, Eff.bind, Eff.lift, Eff.ret, Eff.generateContent.
  rewrite Hm, Htopic, Hlabel, Hgw.
  cbn [sent status json_ok payload]. unfold Client.data.
  cbn [sent status json_ok payload]. unfold obj. cbn [List.concat].
  rewrite Hjs, Hjl, Hjt.
  split; [ reflexivity | ]. split; [ reflexivity | ].
  split; [ destruct gradeLabel as [ | j | n | ]; reflexivity | ].
  split; [ destruct gradeLabel as [ | j | n | ]; reflexivity | ].
  split.
  - intros l ->. reflexivity.
  - intros ->. reflexivity.
Qed.

Lemma teacher_materials_success_witness :
  let b := [ ("topic", JStr "Fractions"); ("grade", JStr "grade13") ] in
  let out := Rich.post_teacher_materials (stubbed "Objectives" VUndefined) b in
  status (sent out) = 200 /\
  Client.data (sent out) "grade" = Some (JStr "grade13") /\
  Client.data (sent out) "gradeLabel" = None.
Proof.
  intros b out.
  destruct (@teacher_materials_success
              (stubbed "Objectives" VUndefined) b
              "Fractions" "undefined" VUndefined (JStr "grade13")
              (mkReply "Objectives" VUndefined)
              eq_refl eq_refl eq_refl eq_refl eq_refl eq_refl eq_refl)
    as (Hstatus & _ & Hgrade & _ & _ & Hnone).
  split; [ exact Hstatus | ]. split; [ exact Hgrade | ].
  exact (Hnone eq_refl).
Defined.

(** X12: when POST /api/learning-path succeeds on two codes of the grade
    table, the startGrade and endGrade of the answer are the labels of the
    two grades, not the codes that were sent; the prompt names the same two
    labels; and the subject reads Cross-curricular when the request gives
    none. *)
Theorem learning_path_success
        (gw : gateway) (b : body) (t s e ls le : string) (r : reply) :
  Js.truthy (field b "topic") = true ->
  Js.to_string (field b "topic") = Return t ->
  field b "startGrade" = VStr s ->
  field b "endGrade" = VStr e ->
  Js.lookup Rich.grades s = Some (VStr ls) ->
  Js.lookup Rich.grades e = Some (VStr le) ->
  gw (VStr (Rich.learning_path_prompt
              t ls le (directive b "in Kiswahili" "in English")))
  = Return r ->
  let out := Rich.post_learning_path gw b in
  calls out
  = [ VStr (Rich.learning_path_prompt
              t ls le (directive b "in Kiswahili" "in English")) ] /\
  status (sent out) = 200 /\
  Client.data (sent out) "startGrade" = Some (JStr ls) /\
  Client.data (sent out) "endGrade" = Some (JStr le) /\
  Client.data (sent out) "learningPath" = Some (JStr (text r)) /\
  (Js.truthy (field b "subject") = false ->
   Client.data (sent out) "subject" = Some (JStr "Cross-curricular")).
Proof.
  intros Ht Htopic Hs He Hls Hle Hgw out. subst out.
  assert (Hst : Js.truthy (VStr s) = true).
  { destruct s; [ discriminate Hls | reflexivity ]. }
  assert (Het : Js.truthy (VStr e) = true).
  { destruct e; [ discriminate Hle | reflexivity ]. }
  destruct (truthy_field b "topic" Ht) as (jt & Hjt).
  destruct (prop_default b "language" "language" "English") as (jl & Hjl).
  unfold Rich.post_learning_path. unfold directive in Hgw.
  rewrite Hs, He in *. rewrite Ht, Hst, Het. cbn [negb orb].
  unfold Eff.try_catch, Eff.bind, Eff.lift, Eff.ret, Eff.generateContent.
  rewrite (member_own _ _ Hls), (member_own _ _ Hle), Htopic.
  change (Js.to_string (VStr ls)) with (Return (A := string) ls).
  change (Js.to_string (VStr le)) with (Return (A := string) le).
  cbn iota beta. rewrite Hgw.
  cbn [calls sent status json_ok payload app]. unfold Client.data.
  cbn [sent status json_ok payload]. unfold obj. cbn [List.concat].
  rewrite Hjl, Hjt.
  split; [ reflexivity | ]. split; [ reflexivity | ].
  destruct (prop_or_else b "subject" "subject" "Cross-curricular")
    as (js & Hjs).
  split; [ rewrite Hjs; reflexivity | ].
  split; [ rewrite Hjs; reflexivity | ].
  split; [ rewrite Hjs; reflexivity | ].
  intro Hfalsy. unfold Js.or_else. rewrite Hfalsy. reflexivity.
Qed.

Lemma learning_path_success_witness :
  let b := [ ("topic", JStr "Fractions"); ("startGrade", JStr "grade4");
             ("endGrade", JStr "grade6") ] in
  let out := Rich.post_learning_path (stubbed "Level 1: ..." VUndefined) b in
  Client.data (sent out) "startGrade" = Some (JStr "Grade 4") /\
  Client.data (sent out) "endGrade" = Some (JStr "Grade 6") /\
  Client.data (sent out) "subject" = Some (JStr "Cross-curricular").
Proof.
  intros b out.
  destruct (@learning_path_success
              (stubbed "Level 1: ..." VUndefined) b
              "Fractions" "grade4" "grade6" "Grade 4" "Grade 6"
              (mkReply "Level 1: ..." VUndefined)
              eq_refl eq_refl eq_refl eq_refl eq_refl eq_refl eq_refl)
    as (_ & _ & Hstart & Hend & _ & Hsubject).
  split; [ exact Hstart | ]. split; [ exact Hend | ].
  exact (Hsubject eq_refl).
Defined.

(** X13: when POST /api/clarify succeeds, the answer is 200 with
    success: true and a data object holding the question and the grade as
    JSON.stringify writes them (as they were sent, a number that is not
    finite becoming null) and the generated clarification, and nothing
    else: the label of the grade and the language are not reported. *)
Theorem clarify_success
        (gw : gateway) (b : body) (p q label : string)
        (question grade : json) (r : reply) :
  Js.truthy (field b "previousContent") = true ->
  field b "question" = VJson question ->
  Js.truthy (VJson question) = true ->
  field b "grade" = VJson grade ->
  Js.truthy (VJson grade) = true ->
  label_text (VJson grade) = Return label ->
  Js.to_string (field b "previousContent") = Return p ->
  Js.to_string (VJson question) = Return q ->
  gw (VStr (Rich.clarify_prompt
              label p q (directive b "Kiswahili" "English")))
  = Return r ->
  Rich.post_clarify gw b
  = mkOutcome
      [ VStr (Rich.clarify_prompt
                label p q (directive b "Kiswahili" "English")) ]
      (mkResponse 200
         (JObj [ ("success", JBool true);
                 ("data",
                  JObj [ ("question", serialize question);
                         ("clarification", JStr (text r));
                         ("grade", serialize grade) ]) ])).
Proof.
  intros Hp Hq Hqt Hg Hgt Hlabel Hprev Hquestion Hgw.
  apply label_text_inv in Hlabel. destruct Hlabel as (gl & Hm & Hgl).
  unfold Rich.post_clarify. unfold directive in Hgw.
  rewrite Hq, Hg in *. rewrite Hp, Hqt, Hgt. cbn [negb orb].
  unfold Eff.try_catch, Eff.bind, Eff.lift, Eff.ret, Eff.generateContent.
  rewrite Hm, Hgl, Hprev, Hquestion, Hgw. reflexivity.
Qed.

Lemma clarify_success_witness :
  let b := [ ("previousContent", JStr "Plants make food from light.");
             ("question", JStr "Why are leaves green?");
             ("grade", JStr "grade6"); ("language", JStr "Kiswahili") ] in
  sent (Rich.post_clarify (stubbed "Chlorophyll ..." VUndefined) b)
  = mkResponse 200
      (JObj [ ("success", JBool true);
              ("data",
               JObj [ ("question", JStr "Why are leaves green?");
                      ("clarification", JStr "Chlorophyll ...");
                      ("grade", JStr "grade6") ]) ]).
Proof.
  intro b.
  rewrite (@clarify_success
             (stubbed "Chlorophyll ..." VUndefined) b
             "Plants make food from light." "Why are leaves green?"
             "Grade 6" (JStr "Why are leaves green?") (JStr "grade6")
             (mkReply "Chlorophyll ..." VUndefined)
             eq_refl eq_refl eq_refl eq_refl eq_refl eq_refl eq_refl
             eq_refl eq_refl).
  reflexivity.
Defined.

(* ================================================================= *)
(** ** The metadata endpoint and the validator *)

Lemma failures_differ :
  Rich.InvalidTopic <> Rich.InvalidContentType /\
  Rich.InvalidGrade <> Rich.InvalidContentType /\
  Rich.InvalidSubject <> Rich.InvalidContentType /\
  Rich.InvalidLanguage <> Rich.InvalidContentType /\
  Rich.InvalidTopic <> Rich.InvalidLanguage /\
  Rich.InvalidGrade <> Rich.InvalidLanguage /\
  Rich.InvalidSubject <> Rich.InvalidLanguage.
Proof.
  repeat split; intro H; apply (f_equal Client.error) in H;
    vm_compute in H; discriminate H.
Qed.

(** X14: every content type in the supportedContentTypes list of
    GET /api/metadata, sent back as the contentType of a generate request,
    passes the content type check of the validator, and every language in
    supportedLanguages passes the language check; conversely the validator
    accepts no content type and no language that the lists do not name. *)
Theorem supported_values_pass (b : body) :
  (forall c,
      In (JStr c) (listed Rich.get_metadata "supportedContentTypes") ->
      field b "contentType" = VStr c ->
      Rich.validateGenerateRequest b <> Respond Rich.InvalidContentType) /\
  (forall l,
      In (JStr l) (listed Rich.get_metadata "supportedLanguages") ->
      field b "language" = VStr l ->
      Rich.validateGenerateRequest b <> Respond Rich.InvalidLanguage) /\
  (Rich.validateGenerateRequest b = Next ->
   In (field b "contentType")
      (map VJson (listed Rich.get_metadata "supportedContentTypes")) /\
   In (field b "language")
      (map VJson (listed Rich.get_metadata "supportedLanguages"))).
Proof.
  destruct failures_differ as (D1 & D2 & D3 & D4 & D5 & D6 & D7).
  assert (Hcts : ~ In EmptyString Rich.contentTypes).
  { simpl. intuition discriminate. }
  assert (Hls : ~ In EmptyString Rich.languages).
  { simpl. intuition discriminate. }
  split; [ | split ].
  - intros c Hin Hc.
    change (listed Rich.get_metadata "supportedContentTypes")
      with (map JStr Rich.contentTypes) in Hin.
    apply in_map_iff in Hin. destruct Hin as (c' & [= ->] & Hin).
    assert (Hcheck :
              negb (Js.truthy (field b "contentType")) ||
              negb (Js.includes Rich.contentTypes (field b "contentType"))
              = false).
    { apply (@enum_check _ _ Hcts). exists c. split; assumption. }
    unfold Rich.validateGenerateRequest. rewrite Hcheck.
    repeat match goal with
           | |- (if ?x then _ else _) <> _ => destruct x
           end; congruence.
  - intros l Hin Hl.
    change (listed Rich.get_metadata "supportedLanguages")
      with (map JStr Rich.languages) in Hin.
    apply in_map_iff in Hin. destruct Hin as (l' & [= ->] & Hin).
    assert (Hcheck :
              negb (Js.truthy (field b "language")) ||
              negb (Js.includes Rich.languages (field b "language"))
              = false).
    { apply (@enum_check _ _ Hls). exists l. split; assumption. }
    unfold Rich.validateGenerateRequest. rewrite Hcheck.
    repeat match goal with
           | |- (if ?x then _ else _) <> _ => destruct x
           end; congruence.
  - intro Hv. apply validated_iff in Hv.
    destruct Hv as [_ _ _ (c & -> & Hc) (l & -> & Hl)].
    change (listed Rich.get_metadata "supportedContentTypes")
      with (map JStr Rich.contentTypes).
    change (listed Rich.get_metadata "supportedLanguages")
      with (map JStr Rich.languages).
    unfold VStr. split; apply in_map, in_map; assumption.
Qed.

Lemma supported_values_pass_witness :
  let b := [ ("topic", JStr "Fractions"); ("grade", JStr "grade4");
             ("contentType", JStr "explanation");
             ("language", JStr "Kiswahili") ] in
  Rich.validateGenerateRequest b <> Respond Rich.InvalidContentType /\
  Rich.validateGenerateRequest b <> Respond Rich.InvalidLanguage.
Proof.
  intro b. destruct (supported_values_pass b) as (Hc & Hl & _). split.
  - apply (Hc "explanation"); [ vm_compute; tauto | reflexivity ].
  - apply (Hl "Kiswahili"); [ vm_compute; tauto | reflexivity ].
Defined.

Lemma metadata_label_lookup (g label : string) :
  Js.lookup Rich.grades g = Some (VStr label) ->
  metadata_label g = Some (JStr label).
Proof.
  intro H. apply lookup_In in H. simpl in H.
  repeat (destruct H as [H | H]; [ injection H as <- <-; reflexivity | ]).
  contradiction.
Qed.

(** X15: the gradeLabel reported by a successful POST /api/generate is the
    entry that GET /api/metadata lists for the grade of the request under
    gradeLabels. *)
Theorem generate_label_matches_metadata
        (gw : gateway) (now : string) (b : body) (g p : string) (r : reply) :
  Rich.validateGenerateRequest b = Next ->
  field b "grade" = VStr g ->
  prompt_of b = Return (VStr p) ->
  gw (VStr p) = Return r ->
  exists label,
    metadata_label g = Some (JStr label) /\
    Client.data (sent (Rich.post_generate gw now b)) "gradeLabel"
    = Some (JStr label).
Proof.
  intros Hv Hg Hp Hgw. unfold Rich.post_generate. rewrite Hv.
  destruct (@validated_fields b Hv)
    as (t & g' & label & c & l & p' & Ht & Hg' & Hlabel & Hc & Hl & Hs & Hp').
  rewrite Hp in Hp'. injection Hp' as <-.
  rewrite Hg in Hg'. injection Hg' as <-.
  destruct (@generate_validated gw now b t g label c l p
                                Ht Hg Hlabel Hc Hl Hs Hp)
    as (_ & _ & Hreturn).
  exists label. split; [ apply metadata_label_lookup; exact Hlabel | ].
  rewrite (Hreturn r Hgw). reflexivity.
Qed.

Lemma generate_label_matches_metadata_witness :
  let b := [ ("topic", JStr "Fractions"); ("grade", JStr "pp2");
             ("contentType", JStr "quiz"); ("language", JStr "English") ] in
  metadata_label "pp2" = Some (JStr "Pre-Primary 2") /\
  Client.data
    (sent (Rich.post_generate (stubbed "Q1) ..." VUndefined)
                              "2025-01-01T00:00:00.000Z" b))
    "gradeLabel"
  = Some (JStr "Pre-Primary 2").
Proof.
  intro b.
  assert (Hv : Rich.validateGenerateRequest b = Next).
  { vm_compute. reflexivity. }
  destruct (@validated_fields b Hv)
    as (t & g & label0 & c & l & p & _ & _ & _ & _ & _ & _ & Hp).
  destruct (@generate_label_matches_metadata
              (stubbed "Q1) ..." VUndefined) "2025-01-01T00:00:00.000Z"
              b "pp2" p (mkReply "Q1) ..." VUndefined)
              Hv eq_refl Hp eq_refl)
    as (label & Hmeta & Hdata).
  assert (E : label = "Pre-Primary 2").
  { vm_compute in Hmeta. injection Hmeta as <-. reflexivity. }
  subst label. split; [ exact Hmeta | exact Hdata ].
Defined.

(* ================================================================= *)
(** ** Further properties of POST /api/gemini *)

(** X16: on a topic that is a string and is not empty once trimmed,
    POST /api/gemini calls the gateway once, with the fixed instruction
    text around the topic as it was sent (not trimmed); when the call
    returns, the answer is 200 with the generated text as output and
    nothing else; when it throws, the answer is 500 with the error Failed
    to generate content and no detail of the exception. *)
Theorem gemini_string_outcome (gw : gateway) (b : body) (s : string) :
  field b "topic" = VStr s ->
  Str.trim s <> EmptyString ->
  calls (Simple.post_gemini gw b) = [ VStr (Simple.prompt s) ] /\
  (forall r,
      gw (VStr (Simple.prompt s)) = Return r ->
      sent (Simple.post_gemini gw b)
      = mkResponse 200 (JObj [ ("output", JStr (text r)) ])) /\
  (forall e,
      gw (VStr (Simple.prompt s)) = Throw e ->
      sent (Simple.post_gemini gw b) = generation_failed).
Proof.
  intros Ht Hs.
  assert (Hne : s <> EmptyString).
  { intros ->. apply Hs. reflexivity. }
  unfold Simple.post_gemini. rewrite Ht.
  unfold Eff.try_catch, Eff.bind, Eff.lift, Eff.ret, Eff.generateContent.
  cbn [Js.truthy VStr Js.call_trim Js.to_string Js.json_to_string].
  destruct (String.eqb_spec s EmptyString) as [ | _ ]; [ contradiction | ].
  destruct (String.eqb_spec (Str.trim s) EmptyString) as [ | _ ];
    [ contradiction | ].
  cbn [negb]. fold (VStr (Simple.prompt s)).
  destruct (gw (VStr (Simple.prompt s))) as [ e | r ].
  - split; [ reflexivity | ]. split.
    + intros r [=].
    + intros e' _. reflexivity.
  - split; [ reflexivity | ]. split.
    + intros r' [= <-]. reflexivity.
    + intros e [=].
Qed.

Lemma gemini_string_outcome_witness :
  let b := [ ("topic", JStr " Photosynthesis ") ] in
  calls (Simple.post_gemini (stubbed "SUMMARY: ..." VUndefined) b)
  = [ VStr (Simple.prompt " Photosynthesis ") ] /\
  sent (Simple.post_gemini (stubbed "SUMMARY: ..." VUndefined) b)
  = mkResponse 200 (JObj [ ("output", JStr "SUMMARY: ...") ]).
Proof.
  intro b.
  assert (Hs : Str.trim " Photosynthesis " <> EmptyString).
  { vm_compute. discriminate. }
  destruct (@gemini_string_outcome
              (stubbed "SUMMARY: ..." VUndefined) b " Photosynthesis "
              eq_refl Hs)
    as (Hcalls & Hreturn & _).
  split; [ exact Hcalls | ].
  exact (Hreturn (mkReply "SUMMARY: ..." VUndefined) eq_refl).
Defined.

(* ================================================================= *)
(** ** The topic and the language in a composed prompt *)

Lemma template_opening (t lc c : string) :
  In c Rich.contentTypes ->
  exists head mid post,
    In head template_heads /\
    forall cbc,
      Js.lookup (Rich.contentPrompts t lc cbc) c
      = Some (VStr ((head ++ Str.dquote ++ t ++ Str.dquote ++ " " ++ lc
                          ++ mid)
                      ++ cbc ++ ". " ++ post)).
Proof.
  intro Hin. simpl in Hin.
  destruct Hin as [<- | [<- | [<- | [<- | [<- | []]]]]].
  - exists "Create a concise lesson summary for ", ". ". eexists.
    split; [ simpl; tauto | ]. intro cbc.
    rewrite !append_assoc. reflexivity.
  - exists "Generate 5 multiple-choice questions for ", ". ". eexists.
    split; [ simpl; tauto | ]. intro cbc.
    rewrite !append_assoc. reflexivity.
  - exists "Design a practical, real-life activity for students to learn ",
           ". ".
    eexists. split; [ simpl; tauto | ]. intro cbc.
    rewrite !append_assoc. reflexivity.
  - exists "Create a competency-based assessment for ", ". ". eexists.
    split; [ simpl; tauto | ]. intro cbc.
    rewrite !append_assoc. reflexivity.
  - exists "Explain ", " in simple, relatable terms. ". eexists.
    split; [ simpl; tauto | ]. intro cbc.
    rewrite !append_assoc. reflexivity.
Qed.

(** X17: in the prompt composed for a request the validator lets through,
    one of the five fixed openings is followed by the topic between double
    quotes, exactly as it was sent, and then by the language directive:
    in Kiswahili when the language is Kiswahili, in English otherwise. *)
Theorem prompt_quotes_topic (b : body) :
  Rich.validateGenerateRequest b = Next ->
  exists t l head rest,
    field b "topic" = VStr t /\
    field b "language" = VStr l /\
    In head template_heads /\
    prompt_of b
    = Return (VStr (head ++ Str.dquote ++ t ++ Str.dquote ++ " "
                         ++ (if l =? "Kiswahili" then "in Kiswahili"
                             else "in English")
                         ++ rest)).
Proof.
  intro Hv. apply validated_iff in Hv.
  destruct Hv as [(t & Ht & _) (g & Hg & Hgin) Hs (c & Hc & Hcin)
                  (l & Hl & _)].
  pose proof Hgin as Hlabel. apply known_grade_label in Hlabel.
  destruct Hlabel as (label & Hlabel).
  destruct (template_opening
              t (Rich.languageContext (VStr l) "in Kiswahili" "in English")
              Hcin) as (head & mid & post & Hhead & Hframe).
  exists t, l, head. eexists.
  split; [ exact Ht | ]. split; [ exact Hl | ]. split; [ exact Hhead | ].
  unfold prompt_of. rewrite Ht, Hg, Hc, Hl. cbn [Js.default VStr].
  erewrite compose_frame;
    [ | exact Hframe | exact Hs | apply member_own; exact Hlabel
      | reflexivity ].
  rewrite !append_assoc. reflexivity.
Qed.

Lemma prompt_quotes_topic_witness :
  let b := [ ("topic", JStr "Fractions"); ("grade", JStr "grade4");
             ("contentType", JStr "explanation");
             ("language", JStr "Kiswahili") ] in
  exists head rest,
    In head template_heads /\
    prompt_of b
    = Return (VStr (head ++ Str.dquote ++ "Fractions" ++ Str.dquote ++ " "
                         ++ "in Kiswahili" ++ rest)).
Proof.
  intro b.
  assert (Hv : Rich.validateGenerateRequest b = Next).
  { vm_compute. reflexivity. }
  destruct (@prompt_quotes_topic b Hv)
    as (t & l & head & rest & Ht & Hl & Hhead & Hp).
  injection Ht as <-. injection Hl as <-.
  exists head, rest. split; [ exact Hhead | exact Hp ].
Defined.
